(** * Grizzy: restaurant opening hours (timeUtils.ts, useRestaurantStatus.ts)

    A shallow embedding of the opening-hours utilities and of the polling
    hook, with the properties of their specification.

    - [JS]        the fragment of the JavaScript runtime the code relies on
                  (string methods, [Number], number printing, [Date]);
    - [TimeUtils] the functions of timeUtils.ts, one definition each;
    - [Hook]      useRestaurantStatus.ts over a timer table and a simulated
                  clock. *)

From Stdlib Require Import ZArith List String Ascii Bool Lia.
From Stdlib Require Import DecimalString DecimalZ.
Import ListNotations.

Local Open Scope string_scope.
Local Open Scope Z_scope.

(** ** Results of a call *)

(** A call returns, throws, or leaves the modelled fragment of the runtime
    ([Beyond]: a numeric literal whose value is not an exactly represented
    integer, or text outside ASCII).  Nothing is claimed about a [Beyond]
    run. *)
Inductive error : Type := TypeError.

Inductive outcome (A : Type) : Type :=
| Returns (a : A)
| Throws (e : error)
| Beyond.

Arguments Returns {A} a.
Arguments Throws {A} e.
Arguments Beyond {A}.

Definition bind {A B} (c : outcome A) (k : A -> outcome B) : outcome B :=
  match c with
  | Returns a => k a
  | Throws e => Throws e
  | Beyond => Beyond
  end.

Notation "x <- c ;; k" := (bind c (fun x => k))
  (at level 61, c at next level, right associativity).

Fixpoint mapM {A B} (f : A -> outcome B) (l : list A) : outcome (list B) :=
  match l with
  | [] => Returns []
  | x :: l' => y <- f x ;; ys <- mapM f l' ;; Returns (y :: ys)
  end.

(** ** The runtime fragment *)

Module JS.

(** *** Numbers

    The numbers of the program are integers or NaN: [Num z] is the number
    with the integer value [z].  Binary64 holds every integer up to
    [MAX_SAFE_INTEGER] in magnitude exactly, and [Number] below only yields
    integers small enough for all later arithmetic to stay exact. *)
Inductive number : Type :=
| Num (z : Z)
| NaN.

Definition MAX_SAFE_INTEGER : Z := 2 ^ 53 - 1.

Definition add (a b : number) : number :=
  match a, b with
  | Num x, Num y => Num (x + y)
  | _, _ => NaN
  end.

Definition sub (a b : number) : number :=
  match a, b with
  | Num x, Num y => Num (x - y)
  | _, _ => NaN
  end.

Definition mul (a b : number) : number :=
  match a, b with
  | Num x, Num y => Num (x * y)
  | _, _ => NaN
  end.

(** [Math.floor(a / d)] for a positive integer constant [d]. *)
Definition floor_div (a : number) (d : Z) : number :=
  match a with
  | Num x => Num (x / d)
  | NaN => NaN
  end.

(** [a % d]: the remainder takes the sign of the dividend. *)
Definition rem (a : number) (d : Z) : number :=
  match a with
  | Num x => Num (Z.rem x d)
  | NaN => NaN
  end.

(** Comparisons: every comparison with NaN is false. *)
Definition lt (a b : number) : bool :=
  match a, b with
  | Num x, Num y => x <? y
  | _, _ => false
  end.

Definition le (a b : number) : bool :=
  match a, b with
  | Num x, Num y => x <=? y
  | _, _ => false
  end.

Definition ge (a b : number) : bool := le b a.

Definition strict_eq (a b : number) : bool :=
  match a, b with
  | Num x, Num y => x =? y
  | _, _ => false
  end.

(** [n.toString()] and the conversion of a template literal. *)
Definition toString (a : number) : string :=
  match a with
  | Num z => NilZero.string_of_int (Z.to_int z)
  | NaN => "NaN"
  end.

(** *** Strings

    A string is a sequence of bytes: ASCII text stands for itself, any other
    character for its UTF-8 encoding.  The separators of the program are
    ASCII, so splitting does not depend on the encoding.  White space is
    the ASCII white space; [Number] leaves the fragment on any other
    byte. *)

Definition is_space (c : ascii) : bool :=
  let n := nat_of_ascii c in
  ((9 <=? n) && (n <=? 13) || (n =? 32))%nat.

Definition is_digit (c : ascii) : bool :=
  let n := nat_of_ascii c in
  ((48 <=? n) && (n <=? 57))%nat.

Definition is_ascii (c : ascii) : bool := (nat_of_ascii c <? 128)%nat.

Fixpoint all (p : ascii -> bool) (s : string) : bool :=
  match s with
  | EmptyString => true
  | String c s' => p c && all p s'
  end.

Fixpoint trimStart (s : string) : string :=
  match s with
  | EmptyString => EmptyString
  | String c s' => if is_space c then trimStart s' else s
  end.

Fixpoint trimEnd (s : string) : string :=
  match s with
  | EmptyString => EmptyString
  | String c s' =>
      match trimEnd s' with
      | EmptyString => if is_space c then EmptyString else String c EmptyString
      | t => String c t
      end
  end.

Definition trim (s : string) : string := trimEnd (trimStart s).

(** [s.split(sep)] for a non-empty separator: the pieces between the
    occurrences of [sep], found left to right without overlap.  [cur] is the
    piece being read; [skip] counts the characters of a separator found one
    step earlier that are still to be passed over. *)
Fixpoint split_from (sep cur : string) (skip : nat) (s : string) : list string :=
  match s with
  | EmptyString => [cur]
  | String c s' =>
      match skip with
      | S k => split_from sep cur k s'
      | O =>
          if prefix sep s
          then cur :: split_from sep EmptyString (String.length sep - 1) s'
          else split_from sep (cur ++ String c EmptyString) O s'
      end
  end.

Definition split (sep s : string) : list string := split_from sep EmptyString O s.

(** [s.padStart(targetLength, padString)]. *)
Fixpoint filler (n : nat) (pad rest : string) : string :=
  match n with
  | O => EmptyString
  | S k =>
      match rest with
      | EmptyString =>
          match pad with
          | EmptyString => EmptyString
          | String c pad' => String c (filler k pad pad')
          end
      | String c rest' => String c (filler k pad rest')
      end
  end.

Definition padStart (targetLength : nat) (padString s : string) : string :=
  filler (targetLength - String.length s) padString padString ++ s.

(** *** [Number(s)]

    White space is trimmed; the empty string is 0; an optionally signed
    run of decimal digits is its value; other text is NaN.  The remaining
    numeric literals (a fraction, an exponent, a radix prefix, Infinity)
    all start, after the sign, with a digit, a dot or the word Infinity:
    such text is [Beyond], as is a run of more than 13 digits and text
    outside ASCII. *)
Definition digit_value (c : ascii) : Z := Z.of_nat (nat_of_ascii c) - 48.

Fixpoint digits_value (acc : Z) (s : string) : Z :=
  match s with
  | EmptyString => acc
  | String c s' => digits_value (10 * acc + digit_value c) s'
  end.

Definition unsigned_literal (sign : Z) (u : string) : outcome number :=
  match u with
  | EmptyString => Returns NaN
  | String c _ =>
      if all is_digit u then
        if (String.length u <=? 13)%nat
        then Returns (Num (sign * digits_value 0 u))
        else Beyond
      else if is_digit c || Ascii.eqb c "." || String.eqb u "Infinity"
           then Beyond
           else Returns NaN
  end.

Definition Number (s : string) : outcome number :=
  if all is_ascii s then
    match trim s with
    | EmptyString => Returns (Num 0)
    | String "+" u => unsigned_literal 1 u
    | String "-" u => unsigned_literal (-1) u
    | t => unsigned_literal 1 t
    end
  else Beyond.

(** *** [Date]

    A host has a clock ([Date.now()], milliseconds since the epoch) and a
    local time zone ([LocalTZA], the offset of local time at an instant). *)
Record Host : Type := mkHost {
  nowMs : Z;
  localTZA : Z -> Z
}.

Definition msPerMinute : Z := 60000.
Definition msPerHour : Z := 3600000.

Definition LocalTime (h : Host) (t : Z) : Z := t + localTZA h t.

(** [new Date(t).getHours()] and [.getMinutes()]: fields of local time. *)
Definition getHours (h : Host) (t : Z) : Z := (LocalTime h t / msPerHour) mod 24.
Definition getMinutes (h : Host) (t : Z) : Z := (LocalTime h t / msPerMinute) mod 60.

End JS.

(** ** timeUtils.ts *)

Module TimeUtils.
Import JS.

(** A field that the code may leave [undefined] is an [option]. *)
Record RestaurantHours : Type := mkHours {
  open : option string;
  close : option string
}.

Record OpeningStatus : Type := mkStatus {
  isOpen : bool;
  status : string;
  message : string;
  nextOpenTime : option string;
  timeUntilClose : option string
}.

(** [const [open, close] = hoursString.split(' - ').map(time => time.trim())]:
    a destructured position past the end of the array is [undefined]. *)
Definition parseRestaurantHours (hoursString : string) : RestaurantHours :=
  let parts := map trim (split " - " hoursString) in
  {| open := nth_error parts 0; close := nth_error parts 1 |}.

(** [timeString.split(':')] throws on [undefined]; [hours * 60 + minutes]
    with [minutes] undefined is NaN. *)
Definition timeToMinutes (timeString : option string) : outcome number :=
  match timeString with
  | None => Throws TypeError
  | Some timeString =>
      parts <- mapM Number (split ":" timeString) ;;
      match nth_error parts 0, nth_error parts 1 with
      | Some hours, Some minutes => Returns (add (mul hours (Num 60)) minutes)
      | _, _ => Returns NaN
      end
  end.

Definition minutesToTime (minutes : number) : string :=
  let hours := floor_div minutes 60 in
  let mins := rem minutes 60 in
  padStart 2 "0" (toString hours) ++ ":" ++ padStart 2 "0" (toString mins).

Definition getCurrentMoroccoTime (host : Host) : Z :=
  let now := nowMs host in
  let moroccoTime := now + 1 * 60 * 60 * 1000 in
  moroccoTime.

Definition formatTimeUntil (minutes : number) : string :=
  if lt minutes (Num 60) then
    toString minutes ++ " min"
  else
    let hours := floor_div minutes 60 in
    let remainingMinutes := rem minutes 60 in
    if strict_eq remainingMinutes (Num 0) then
      toString hours ++ "h"
    else
      toString hours ++ "h" ++ padStart 2 "0" (toString remainingMinutes).

(** [now.getHours() * 60 + now.getMinutes()] of the shifted instant. *)
Definition currentMinutes (host : Host) : Z :=
  let now := getCurrentMoroccoTime host in
  getHours host now * 60 + getMinutes host now.

(** The body of [getRestaurantStatus] once the three minute counts are
    known. *)
Definition statusAt (currentMinutes : number) (openMinutes closeMinutes : number)
  : OpeningStatus :=
  let isOvernight := lt closeMinutes openMinutes in
  if isOvernight then
    if lt currentMinutes closeMinutes then
      let minutesUntilClose := sub closeMinutes currentMinutes in
      let isClosingSoon := le minutesUntilClose (Num 30) in
      {| isOpen := true;
         status := if isClosingSoon then "closing_soon" else "open";
         message := if isClosingSoon
                    then "Ferme bientôt (" ++ minutesToTime closeMinutes ++ ")"
                    else "Ouvert jusqu'à " ++ minutesToTime closeMinutes;
         nextOpenTime := None;
         timeUntilClose := Some (formatTimeUntil minutesUntilClose) |}
    else if ge currentMinutes openMinutes then
      let minutesUntilMidnight := sub (Num (24 * 60)) currentMinutes in
      let minutesUntilClose := add minutesUntilMidnight closeMinutes in
      let isClosingSoon := le minutesUntilClose (Num 30) in
      {| isOpen := true;
         status := if isClosingSoon then "closing_soon" else "open";
         message := if isClosingSoon
                    then "Ferme bientôt (" ++ minutesToTime closeMinutes ++ ")"
                    else "Ouvert jusqu'à " ++ minutesToTime closeMinutes;
         nextOpenTime := None;
         timeUntilClose := Some (formatTimeUntil minutesUntilClose) |}
    else
      {| isOpen := false;
         status := "closed";
         message := "Fermé - Ouvre à " ++ minutesToTime openMinutes;
         nextOpenTime := Some (minutesToTime openMinutes);
         timeUntilClose := None |}
  else
    if ge currentMinutes openMinutes && lt currentMinutes closeMinutes then
      let minutesUntilClose := sub closeMinutes currentMinutes in
      let isClosingSoon := le minutesUntilClose (Num 30) in
      {| isOpen := true;
         status := if isClosingSoon then "closing_soon" else "open";
         message := if isClosingSoon
                    then "Ferme bientôt (" ++ minutesToTime closeMinutes ++ ")"
                    else "Ouvert jusqu'à " ++ minutesToTime closeMinutes;
         nextOpenTime := None;
         timeUntilClose := Some (formatTimeUntil minutesUntilClose) |}
    else
      let message :=
        if lt currentMinutes openMinutes
        then "Fermé - Ouvre à " ++ minutesToTime openMinutes
        else "Fermé - Ouvre demain à " ++ minutesToTime openMinutes in
      {| isOpen := false;
         status := "closed";
         message := message;
         nextOpenTime := Some (minutesToTime openMinutes);
         timeUntilClose := None |}.

(** The clock is read inside the function: [host] stands for the machine the
    call runs on, not for an argument of the source function. *)
Definition getRestaurantStatus (host : Host) (hoursString : string)
  : outcome OpeningStatus :=
  let hours := parseRestaurantHours hoursString in
  let currentMinutes := Num (currentMinutes host) in
  openMinutes <- timeToMinutes (open hours) ;;
  closeMinutes <- timeToMinutes (close hours) ;;
  Returns (statusAt currentMinutes openMinutes closeMinutes).

Definition getStatusColor (status : string) : string :=
  if String.eqb status "open" then "text-green-400"
  else if String.eqb status "closing_soon" then "text-yellow-400"
  else if String.eqb status "closed" then "text-red-400"
  else "text-gray-400".

Definition getStatusIcon (isOpen : bool) : string :=
  if isOpen then "🟢" else "🔴".

End TimeUtils.

(** ** useRestaurantStatus.ts

    The hook runs inside a component instance.  The instance owns the state
    cell of [useState], the cleanup the effect returned, and here also the
    host with its clock and the table of interval timers.  Time is
    simulated: [elapse] moves the clock and runs each interval callback at
    the instant it is due.  React runs the effect after the first render and
    the cleanup when the component is removed; a re-render with another
    hours string is not part of this model. *)

Module Hook.
Import JS TimeUtils.

(** An interval timer.  Its callback is [updateStatus], represented by the
    hours string the closure captured. *)
Record Timer : Type := mkTimer {
  timerId : nat;
  due : Z;
  delay : Z;
  captured : string
}.

(** What an observer of the instance sees, newest first. *)
Inductive Entry : Type :=
| Evaluated (time : Z) (hoursString : string)
| Published (time : Z) (newStatus : OpeningStatus)
| Uncaught (time : Z) (e : error).

Record Component : Type := mkComponent {
  host : Host;
  timers : list Timer;
  nextTimerId : nat;
  state : option OpeningStatus;
  cleanup : option nat;
  log : list Entry
}.

(** Code that changes the instance and may throw: the changes made before a
    throw stay. *)
Definition M (A : Type) : Type := Component -> outcome A * Component.

Definition ret {A} (a : A) : M A := fun w => (Returns a, w).

Definition bindM {A B} (c : M A) (k : A -> M B) : M B :=
  fun w =>
    match c w with
    | (Returns a, w') => k a w'
    | (Throws e, w') => (Throws e, w')
    | (Beyond, w') => (Beyond, w')
    end.

Notation "x <~ c ;; k" := (bindM c (fun x => k))
  (at level 61, c at next level, right associativity).
Notation "c ;;; k" := (bindM c (fun _ => k))
  (at level 61, right associativity).

Definition clock (w : Component) : Z := nowMs (host w).

Definition note (e : Entry) : M unit :=
  fun w => (Returns tt,
            mkComponent (host w) (timers w) (nextTimerId w) (state w) (cleanup w)
              (e :: log w)).

Definition setClock (t : Z) : M unit :=
  fun w => (Returns tt,
            mkComponent (mkHost t (localTZA (host w))) (timers w) (nextTimerId w)
              (state w) (cleanup w) (log w)).

Definition setTimers (ts : list Timer) : M unit :=
  fun w => (Returns tt,
            mkComponent (host w) ts (nextTimerId w) (state w) (cleanup w) (log w)).

Definition setCleanup (c : option nat) : M unit :=
  fun w => (Returns tt,
            mkComponent (host w) (timers w) (nextTimerId w) (state w) c (log w)).

(** [getRestaurantStatus(hoursString)] on the host of the instance. *)
Definition evaluate (hoursString : string) : M OpeningStatus :=
  fun w =>
    match note (Evaluated (clock w) hoursString) w with
    | (_, w') => (getRestaurantStatus (host w) hoursString, w')
    end.

(** [setStatus(newStatus)]: the new value is published to the component. *)
Definition setStatus (newStatus : OpeningStatus) : M unit :=
  fun w => (Returns tt,
            mkComponent (host w) (timers w) (nextTimerId w) (Some newStatus)
              (cleanup w) (Published (clock w) newStatus :: log w)).

(** [setInterval(updateStatus, delay)]: a delay below 1 counts as 1. *)
Definition setInterval (hoursString : string) (delay : Z) : M nat :=
  fun w =>
    let id := nextTimerId w in
    let d := Z.max 1 delay in
    (Returns id,
     mkComponent (host w)
       (timers w ++ [mkTimer id (clock w + d) d hoursString])
       (S id) (state w) (cleanup w) (log w)).

Definition clearInterval (interval : nat) : M unit :=
  fun w => setTimers (filter (fun t => negb (Nat.eqb (timerId t) interval)) (timers w)) w.

(** The lazy initializer of [useState]. *)
Definition initialState (hoursString : string) : M unit :=
  fun w =>
    match evaluate hoursString w with
    | (Returns r, w') =>
        (Returns tt,
         mkComponent (host w') (timers w') (nextTimerId w') (Some r) (cleanup w')
           (log w'))
    | (Throws e, w') => (Throws e, w')
    | (Beyond, w') => (Beyond, w')
    end.

Definition updateStatus (hoursString : string) : M unit :=
  newStatus <~ evaluate hoursString ;;
  setStatus newStatus.

(** The effect: update now, update every minute, hand back the cleanup. *)
Definition effect (hoursString : string) : M unit :=
  updateStatus hoursString ;;;
  interval <~ setInterval hoursString 60000 ;;
  setCleanup (Some interval).

(** First render of [useRestaurantStatus(hoursString)], then its effect. *)
Definition mount (hoursString : string) : M unit :=
  initialState hoursString ;;;
  effect hoursString.

(** Removal of the component: the cleanup [() => clearInterval(interval)]. *)
Definition unmount : M unit :=
  fun w =>
    match cleanup w with
    | Some interval => (clearInterval interval ;;; setCleanup None) w
    | None => ret tt w
    end.

(** The value the hook returns to the component. *)
Definition useRestaurantStatus (w : Component) : option OpeningStatus := state w.

(** A later render of [useRestaurantStatus(hoursString)], the one before
    having been with [previous]: the state cell is kept and the initializer
    is not run again; when the dependency [hoursString] has changed, the
    cleanup of the last effect runs and then the effect. *)
Definition rerender (previous hoursString : string) : M unit :=
  if String.eqb previous hoursString then ret tt
  else unmount ;;; effect hoursString.

(** *** The timer loop of the host *)

(** The timer that is due first; of two due together, the older one. *)
Fixpoint earliest (ts : list Timer) : option Timer :=
  match ts with
  | [] => None
  | t :: ts' =>
      match earliest ts' with
      | None => Some t
      | Some u => if due t <=? due u then Some t else Some u
      end
  end.

Definition reschedule (t : Timer) : M unit :=
  fun w =>
    setTimers
      (map (fun u => if Nat.eqb (timerId u) (timerId t)
                     then mkTimer (timerId u) (due u + delay u) (delay u) (captured u)
                     else u)
           (timers w)) w.

(** A throw of the callback is reported and the interval goes on. *)
Definition fire (t : Timer) : M unit :=
  fun w =>
    match updateStatus (captured t) w with
    | (Throws e, w') => note (Uncaught (clock w') e) w'
    | r => r
    end.

(** How often [t] falls due up to [target]. *)
Definition firings (target : Z) (t : Timer) : nat :=
  if due t <=? target then S (Z.to_nat ((target - due t) / delay t)) else O.

Fixpoint run (fuel : nat) (target : Z) : M unit :=
  match fuel with
  | O => setClock target
  | S fuel' =>
      fun w =>
        match earliest (timers w) with
        | Some t =>
            if due t <=? target
            then (setClock (due t) ;;; fire t ;;; reschedule t ;;; run fuel' target) w
            else setClock target w
        | None => setClock target w
        end
  end.

(** [ms] milliseconds pass. *)
Definition elapse (ms : Z) : M unit :=
  fun w =>
    let target := clock w + ms in
    run (fold_right Nat.add O (map (firings target) (timers w))) target w.

(** A component about to be rendered for the first time. *)
Definition fresh (h : Host) : Component := mkComponent h [] O None None [].

Fixpoint publications (l : list Entry) : list (Z * OpeningStatus) :=
  match l with
  | [] => []
  | Published t r :: l' => (t, r) :: publications l'
  | _ :: l' => publications l'
  end.

Fixpoint evaluations (l : list Entry) : list Z :=
  match l with
  | [] => []
  | Evaluated t _ :: l' => t :: evaluations l'
  | _ :: l' => evaluations l'
  end.

End Hook.

(** ** Vocabulary of the properties *)

Module Vocabulary.
Import JS TimeUtils Hook.

(** A host in UTC whose shifted clock shows [h]:[m] on the first day. *)
Definition utc_at (h m : Z) : Host :=
  mkHost ((h - 1) * msPerHour + m * msPerMinute) (fun _ => 0).

(** The coupling between the fields of a result. *)
Definition coupled (r : OpeningStatus) : Prop :=
  (isOpen r = true <-> (status r = "open" \/ status r = "closing_soon")) /\
  (isOpen r = true <-> (timeUntilClose r <> None /\ nextOpenTime r = None)) /\
  (isOpen r = false <-> status r = "closed") /\
  (isOpen r = false <-> (nextOpenTime r <> None /\ timeUntilClose r = None)).

(** [sep] occurs in [s] ([sep] not empty). *)
Fixpoint contains (sep s : string) : bool :=
  match s with
  | EmptyString => false
  | String _ s' => prefix sep s || contains sep s'
  end.

(** The two decimal digits of [r], for [0 <= r < 100]. *)
Definition two_digits (r : Z) : string :=
  String (ascii_of_nat (48 + Z.to_nat (r / 10)))
    (String (ascii_of_nat (48 + Z.to_nat (r mod 10))) EmptyString).

(** [minutesToTime] followed by [timeToMinutes] gives [m] back. *)
Definition roundtrip_ok (m : Z) : bool :=
  match timeToMinutes (Some (minutesToTime (Num m))) with
  | Returns (Num k) => k =? m
  | _ => false
  end.

(** Padding the numeral of [r] gives its two digits. *)
Definition pad_ok (r : Z) : bool :=
  String.eqb (padStart 2 "0" (toString (Num r))) (two_digits r).

(** The status published at time [t] on a host in the time zone [tz], for
    an interval whose sides convert to [o] and [c]. *)
Definition published_at (tz : Z -> Z) (o c : number) (t : Z) : OpeningStatus :=
  statusAt (Num (currentMinutes (mkHost t tz))) o c.

(** The entries [n] interval callbacks add to the log [base], the first of
    them at time [d]. *)
Fixpoint ticks (tz : Z -> Z) (s : string) (o c : number) (d : Z) (n : nat)
    (base : list Entry) : list Entry :=
  match n with
  | O => base
  | S n' =>
      ticks tz s o c (d + 60000) n'
        (Published d (published_at tz o c d) :: Evaluated d s :: base)
  end.

(** The publication of tick number [k] after an activation at [t0]. *)
Definition publication (tz : Z -> Z) (o c : number) (t0 : Z) (k : nat)
  : Z * OpeningStatus :=
  (t0 + Z.of_nat k * 60000, published_at tz o c (t0 + Z.of_nat k * 60000)).

(** The character [x] does not occur in [s]. *)
Definition without (x : ascii) (s : string) : bool :=
  all (fun ch => negb (Ascii.eqb ch x)) s.

(** A decimal numeral that [Number] converts exactly: one to thirteen
    digits. *)
Definition numeral (ds : string) : bool :=
  match ds with
  | EmptyString => false
  | String _ _ => all is_digit ds && (String.length ds <=? 13)%nat
  end.

(** The two digits of [k] are a numeral with the value [k]. *)
Definition two_digits_ok (k : Z) : bool :=
  numeral (two_digits k) && (digits_value 0 (two_digits k) =? k).

(** No text occurs twice in [l]. *)
Fixpoint distinct (l : list string) : bool :=
  match l with
  | [] => true
  | x :: l' => negb (existsb (String.eqb x) l') && distinct l'
  end.

(** The texts of the time left, for 0 to [n - 1] minutes. *)
Definition countdown_texts (n : nat) : list string :=
  map (fun k => formatTimeUntil (Num (Z.of_nat k))) (seq 0 n).

End Vocabulary.

(** ** Properties of timeUtils.ts *)

Module TimeUtilsFacts.
Import JS TimeUtils Vocabulary.

Lemma currentMinutes_range host : 0 <= currentMinutes host < 1440.
Proof.
  unfold currentMinutes, getHours, getMinutes.
  pose proof (Z.mod_pos_bound (LocalTime host (getCurrentMoroccoTime host) / msPerHour) 24).
  pose proof (Z.mod_pos_bound (LocalTime host (getCurrentMoroccoTime host) / msPerMinute) 60).
  lia.
Qed.

Lemma currentMinutes_utc_at h m :
  0 <= h < 24 -> 0 <= m < 60 -> currentMinutes (utc_at h m) = h * 60 + m.
Proof.
  intros Hh Hm.
  unfold currentMinutes, getHours, getMinutes, LocalTime, getCurrentMoroccoTime,
    utc_at, msPerHour, msPerMinute; cbn [nowMs localTZA].
  replace ((h - 1) * 3600000 + m * 60000 + 1 * 60 * 60 * 1000 + 0)
    with (m * 60000 + h * 3600000) by lia.
  assert (H1 : (m * 60000 + h * 3600000) / 3600000 = h)
    by (symmetry; apply (Z.div_unique _ _ _ (m * 60000)); lia).
  assert (H2 : (m * 60000 + h * 3600000) / 60000 = m + h * 60)
    by (symmetry; apply (Z.div_unique _ _ _ 0); lia).
  rewrite H1, H2.
  rewrite (Z.mod_small h) by lia.
  rewrite Z.mod_add by lia.
  rewrite Z.mod_small by lia. lia.
Qed.

(** Every minute of the day is shown by some host. *)
Lemma currentMinutes_onto n :
  0 <= n < 1440 -> currentMinutes (utc_at (n / 60) (n mod 60)) = n.
Proof.
  intros Hn.
  pose proof (Z.mod_pos_bound n 60).
  pose proof (Z.div_mod n 60).
  assert (0 <= n / 60 < 24)
    by (split; [apply Z.div_pos; lia | apply Z.div_lt_upper_bound; lia]).
  rewrite currentMinutes_utc_at; lia.
Qed.

(** When both sides of the interval convert, the evaluator returns the
    status computed from the three minute counts. *)
Lemma getRestaurantStatus_returns host s o c :
  timeToMinutes (open (parseRestaurantHours s)) = Returns o ->
  timeToMinutes (close (parseRestaurantHours s)) = Returns c ->
  getRestaurantStatus host s = Returns (statusAt (Num (currentMinutes host)) o c).
Proof.
  intros Ho Hc. unfold getRestaurantStatus. rewrite Ho, Hc. reflexivity.
Qed.

Ltac cmp :=
  repeat match goal with
  | |- context [?a <? ?b] => destruct (Z.ltb_spec a b)
  | |- context [?a <=? ?b] => destruct (Z.leb_spec a b)
  end.

(** C1. Same-day interval ([openM <= closeM]): the result is open exactly
    when [openM <= nowM < closeM]; when open, the time until closing is
    rendered from [closeM - nowM], and the status is [closing_soon] when
    that count is at most 30 and [open] otherwise. *)
Theorem same_day_interval host s openM closeM :
  timeToMinutes (open (parseRestaurantHours s)) = Returns (Num openM) ->
  timeToMinutes (close (parseRestaurantHours s)) = Returns (Num closeM) ->
  openM <= closeM ->
  exists r,
    getRestaurantStatus host s = Returns r /\
    (isOpen r = true <-> openM <= currentMinutes host < closeM) /\
    (openM <= currentMinutes host < closeM ->
       timeUntilClose r = Some (formatTimeUntil (Num (closeM - currentMinutes host))) /\
       status r = if closeM - currentMinutes host <=? 30 then "closing_soon" else "open").
Proof.
  intros Ho Hc Hle.
  eexists. split; [apply (getRestaurantStatus_returns _ _ _ _ Ho Hc)|].
  set (nowM := currentMinutes host).
  unfold statusAt, lt, ge, le, sub.
  destruct (Z.ltb_spec closeM openM); [lia|].
  destruct (Z.leb_spec openM nowM), (Z.ltb_spec nowM closeM); simpl;
    (split; [split; [try discriminate; lia | intros; try reflexivity; lia] | ]);
    intros; try lia.
  split; [reflexivity|]. destruct (closeM - nowM <=? 30); reflexivity.
Qed.

Lemma same_day_interval_witness :
  exists r,
    getRestaurantStatus (utc_at 17 45) "09:00 - 18:00" = Returns r /\
    isOpen r = true /\ status r = "closing_soon" /\ timeUntilClose r = Some "15 min".
Proof.
  destruct (same_day_interval (utc_at 17 45) "09:00 - 18:00" 540 1080
              eq_refl eq_refl ltac:(lia)) as [r [Hr [Hopen Hm]]].
  exists r. split; [exact Hr|].
  assert (Hin : 540 <= currentMinutes (utc_at 17 45) < 1080) by (rewrite currentMinutes_utc_at; lia).
  split; [apply Hopen; exact Hin|].
  destruct (Hm Hin) as [Ht Hs]. split; [exact Hs | exact Ht].
Defined.

(** C2. The interval is treated as overnight exactly when
    [closeM < openM].  An overnight interval has three zones: before
    [closeM] the result is open with [closeM - nowM] minutes left; from
    [openM] on it is open with [(1440 - nowM) + closeM] minutes left; in
    between it is closed and the next opening is the opening time.  In both
    open zones the status is [closing_soon] exactly when at most 30 minutes
    are left.  An interval that is not overnight follows the same-day
    rule. *)
Theorem overnight_interval host s openM closeM :
  timeToMinutes (open (parseRestaurantHours s)) = Returns (Num openM) ->
  timeToMinutes (close (parseRestaurantHours s)) = Returns (Num closeM) ->
  exists r,
    getRestaurantStatus host s = Returns r /\
    (closeM < openM ->
       (currentMinutes host < closeM ->
          isOpen r = true /\
          timeUntilClose r = Some (formatTimeUntil (Num (closeM - currentMinutes host))) /\
          (status r = "closing_soon" <-> closeM - currentMinutes host <= 30) /\
          (status r = "open" <-> 30 < closeM - currentMinutes host)) /\
       (openM <= currentMinutes host ->
          isOpen r = true /\
          timeUntilClose r =
            Some (formatTimeUntil (Num ((1440 - currentMinutes host) + closeM))) /\
          (status r = "closing_soon" <-> (1440 - currentMinutes host) + closeM <= 30) /\
          (status r = "open" <-> 30 < (1440 - currentMinutes host) + closeM)) /\
       (closeM <= currentMinutes host < openM ->
          isOpen r = false /\ status r = "closed" /\
          nextOpenTime r = Some (minutesToTime (Num openM)))) /\
    (openM <= closeM ->
       (isOpen r = true <-> openM <= currentMinutes host < closeM)).
Proof.
  intros Ho Hc.
  eexists. split; [apply (getRestaurantStatus_returns _ _ _ _ Ho Hc)|].
  set (nowM := currentMinutes host).
  unfold statusAt, lt, ge, le, sub, add.
  destruct (Z.ltb_spec closeM openM) as [Hov|Hsd]; split; try (intros; lia); intros _.
  - destruct (Z.ltb_spec nowM closeM), (Z.leb_spec openM nowM);
      (split; [|split]); intros; try lia; cbn [isOpen status timeUntilClose nextOpenTime];
      repeat split; intros; cmp;
      try reflexivity; try discriminate; try lia.
    all: match goal with
         | H : (if ?a <=? ?b then _ else _) = _ |- _ =>
             destruct (Z.leb_spec a b); [try lia | try lia]; discriminate H
         end.
  - destruct (Z.leb_spec openM nowM), (Z.ltb_spec nowM closeM); simpl;
      split; intros; try reflexivity; try discriminate; try lia.
Qed.

Lemma overnight_interval_witness :
  exists r,
    getRestaurantStatus (utc_at 13 0) "12:00 - 00:15" = Returns r /\
    isOpen r = true /\ timeUntilClose r = Some "11h15" /\ status r = "open".
Proof.
  destruct (overnight_interval (utc_at 13 0) "12:00 - 00:15" 720 15 eq_refl eq_refl)
    as [r [Hr [Hov _]]].
  exists r. split; [exact Hr|].
  destruct (Hov ltac:(lia)) as [_ [Hevening _]].
  assert (Hnow : currentMinutes (utc_at 13 0) = 780)
    by (rewrite currentMinutes_utc_at; lia).
  destruct (Hevening ltac:(lia)) as [Hopen [Ht [_ Hs]]].
  rewrite Hnow in Ht, Hs.
  split; [exact Hopen|]. split; [exact Ht|]. apply Hs. lia.
Defined.

(** C6. With equal opening and closing minute counts the interval is not
    overnight and the result is closed, whatever the current minute. *)
Theorem equal_bounds_always_closed host s m :
  timeToMinutes (open (parseRestaurantHours s)) = Returns (Num m) ->
  timeToMinutes (close (parseRestaurantHours s)) = Returns (Num m) ->
  lt (Num m) (Num m) = false /\
  exists r,
    getRestaurantStatus host s = Returns r /\
    isOpen r = false /\ status r = "closed".
Proof.
  intros Ho Hc. split; [apply Z.ltb_irrefl|].
  eexists. split; [apply (getRestaurantStatus_returns _ _ _ _ Ho Hc)|].
  set (nowM := currentMinutes host).
  unfold statusAt, lt, ge, le.
  rewrite Z.ltb_irrefl.
  destruct (Z.leb_spec m nowM), (Z.ltb_spec nowM m); simpl;
    try lia; split; reflexivity.
Qed.

Lemma equal_bounds_always_closed_witness :
  exists r,
    getRestaurantStatus (utc_at 9 0) "09:00 - 09:00" = Returns r /\
    isOpen r = false /\ status r = "closed".
Proof.
  exact (proj2 (equal_bounds_always_closed (utc_at 9 0) "09:00 - 09:00" 540
                  eq_refl eq_refl)).
Defined.

Lemma coupled_open st msg t :
  st = "open" \/ st = "closing_soon" ->
  coupled (mkStatus true st msg None (Some t)).
Proof.
  intros Hst. unfold coupled; simpl.
  repeat split; intros; try assumption; try reflexivity; try discriminate.
  - destruct Hst; subst; discriminate.
  - destruct H as [H _]. contradiction.
Qed.

Lemma coupled_closed msg t : coupled (mkStatus false "closed" msg (Some t) None).
Proof.
  unfold coupled; simpl.
  repeat split; intros; try reflexivity; try discriminate.
  - destruct H; discriminate.
  - destruct H as [H _]. contradiction.
Qed.

Lemma statusAt_coupled n o c : coupled (statusAt n o c).
Proof.
  unfold statusAt.
  repeat match goal with
  | |- context [if ?b then _ else _] => destruct b
  end;
  first [ apply coupled_closed | apply coupled_open; auto ].
Qed.

(** C9. Every result the evaluator returns couples its fields: it is open
    exactly when the status is [open] or [closing_soon], and exactly when
    the time until closing is present and the next opening absent; it is
    not open exactly when the status is [closed], and exactly when the next
    opening is present and the time until closing absent. *)
Theorem result_coupling host s r :
  getRestaurantStatus host s = Returns r -> coupled r.
Proof.
  unfold getRestaurantStatus, bind. intros H.
  destruct (timeToMinutes (open (parseRestaurantHours s))); try discriminate.
  destruct (timeToMinutes (close (parseRestaurantHours s))); try discriminate.
  injection H as <-. apply statusAt_coupled.
Qed.

Lemma result_coupling_witness :
  coupled (mkStatus true "closing_soon" "Ferme bientôt (18:00)" None (Some "15 min")).
Proof.
  exact (result_coupling (utc_at 17 45) "09:00 - 18:00" _ eq_refl).
Defined.

(** C10. The colour of each of the three statuses, the colour of any other
    status, and the two glyphs. *)
Theorem presentation_helpers :
  getStatusColor "open" = "text-green-400" /\
  getStatusColor "closing_soon" = "text-yellow-400" /\
  getStatusColor "closed" = "text-red-400" /\
  (forall st, st <> "open" -> st <> "closing_soon" -> st <> "closed" ->
     getStatusColor st = "text-gray-400") /\
  getStatusIcon true = "🟢" /\
  getStatusIcon false = "🔴".
Proof.
  repeat split; try reflexivity.
  intros st H1 H2 H3. unfold getStatusColor.
  apply String.eqb_neq in H1, H2, H3. rewrite H1, H2, H3. reflexivity.
Qed.

Lemma presentation_helpers_witness : getStatusColor "unknown" = "text-gray-400".
Proof.
  destruct presentation_helpers as [_ [_ [_ [Hother _]]]].
  apply Hother; discriminate.
Defined.

(** C7 as stated fails: the string is the only argument of the evaluator,
    and one string gives two results on a host whose clock has moved on;
    even at one instant, two hosts in different time zones disagree. *)
Lemma evaluation_reads_the_clock :
  getRestaurantStatus (utc_at 9 0) "09:00 - 18:00"
    <> getRestaurantStatus (utc_at 19 0) "09:00 - 18:00" /\
  (let here := mkHost 0 (fun _ => 0) in
   let there := mkHost 0 (fun _ => 12 * msPerHour) in
   nowMs here = nowMs there /\
   getRestaurantStatus here "09:00 - 18:00"
     <> getRestaurantStatus there "09:00 - 18:00").
Proof.
  split; [|split]; try reflexivity; vm_compute; discriminate.
Qed.

(** C7, amended. The result is a function of the hours string and of the
    minute of the day the host shows for the shifted clock: two evaluations
    that agree on both return the same outcome, field by field. *)
Theorem evaluation_deterministic host1 host2 s :
  currentMinutes host1 = currentMinutes host2 ->
  getRestaurantStatus host1 s = getRestaurantStatus host2 s.
Proof.
  intros H. unfold getRestaurantStatus. rewrite H. reflexivity.
Qed.

Lemma evaluation_deterministic_witness :
  getRestaurantStatus (utc_at 17 45) "09:00 - 18:00"
    = getRestaurantStatus (mkHost (40 * msPerHour + 45 * msPerMinute) (fun _ => 0))
        "09:00 - 18:00".
Proof.
  apply evaluation_deterministic. vm_compute. reflexivity.
Defined.

(** *** Checking a property on an initial segment of the integers *)

Lemma below_all (P : Z -> bool) (n : nat) :
  forallb P (map Z.of_nat (seq 0 n)) = true ->
  forall z, 0 <= z < Z.of_nat n -> P z = true.
Proof.
  intros Hall z Hz. rewrite forallb_forall in Hall. apply Hall.
  rewrite in_map_iff. exists (Z.to_nat z). split; [lia|].
  apply in_seq. lia.
Qed.

Lemma padStart_two_digits r :
  0 <= r < 100 -> padStart 2 "0" (toString (Num r)) = two_digits r.
Proof.
  intros Hr. apply String.eqb_eq.
  apply (below_all pad_ok 100); [vm_compute; reflexivity | lia].
Qed.

(** C4. For every [m] from 0 to 1439, [timeToMinutes(minutesToTime(m))]
    is [m]. *)
Theorem minutes_roundtrip m :
  0 <= m <= 1439 ->
  timeToMinutes (Some (minutesToTime (Num m))) = Returns (Num m).
Proof.
  intros Hm.
  assert (H : roundtrip_ok m = true)
    by (apply (below_all roundtrip_ok 1440); [vm_compute; reflexivity | lia]).
  unfold roundtrip_ok in H.
  destruct (timeToMinutes (Some (minutesToTime (Num m)))) as [[k|]| |];
    try discriminate.
  apply Z.eqb_eq in H. subst k. reflexivity.
Qed.

Lemma minutes_roundtrip_witness :
  timeToMinutes (Some (minutesToTime (Num 1439))) = Returns (Num 1439).
Proof.
  apply minutes_roundtrip. lia.
Defined.

(** C5. For a minute count [n >= 0]: below 60 the text is the numeral of
    [n] followed by " min"; from 60 on it is the numeral of the hours
    followed by "h", and, unless the remainder is zero, by the two digits of
    the remainder. *)
Theorem formatTimeUntil_cases :
  (forall n, 0 <= n <= MAX_SAFE_INTEGER ->
     (n < 60 -> formatTimeUntil (Num n) = toString (Num n) ++ " min") /\
     (60 <= n -> n mod 60 = 0 ->
        formatTimeUntil (Num n) = toString (Num (n / 60)) ++ "h") /\
     (60 <= n -> n mod 60 <> 0 ->
        formatTimeUntil (Num n) =
          toString (Num (n / 60)) ++ "h" ++ two_digits (n mod 60))) /\
  formatTimeUntil (Num 45) = "45 min" /\
  formatTimeUntil (Num 90) = "1h30" /\
  formatTimeUntil (Num 120) = "2h".
Proof.
  split; [|repeat split; reflexivity].
  intros n [Hn _].
  pose proof (Z.mod_pos_bound n 60 ltac:(lia)) as Hr.
  unfold formatTimeUntil, lt, floor_div, rem, strict_eq.
  rewrite Z.rem_mod_nonneg by lia.
  destruct (Z.ltb_spec n 60); (split; [|split]); intros; try lia; try reflexivity.
  - destruct (Z.eqb_spec (n mod 60) 0); [reflexivity | lia].
  - destruct (Z.eqb_spec (n mod 60) 0); [lia|].
    rewrite padStart_two_digits by lia. reflexivity.
Qed.

Lemma formatTimeUntil_cases_witness : formatTimeUntil (Num 605) = "10h05".
Proof.
  destruct formatTimeUntil_cases as [Hall _].
  destruct (Hall 605) as [_ [_ Hpad]]; [unfold MAX_SAFE_INTEGER; lia|].
  rewrite Hpad; [reflexivity | lia | discriminate].
Defined.

(** *** Splitting and the separator *)

Lemma prefix_app sep b : prefix sep (sep ++ b) = true.
Proof.
  induction sep as [|a sep IH]; simpl; [destruct b; reflexivity|].
  destruct (ascii_dec a a); [exact IH | contradiction].
Qed.

Lemma prefix_inv sep : forall s, prefix sep s = true -> exists b, s = sep ++ b.
Proof.
  induction sep as [|a sep IH]; intros s H; [exists s; reflexivity|].
  destruct s as [|x s]; simpl in H; [discriminate|].
  destruct (ascii_dec a x) as [->|]; [|discriminate].
  destruct (IH s H) as [b ->]. exists b. reflexivity.
Qed.

(** [contains] is occurrence as a substring. *)
Lemma contains_spec a0 sep0 s :
  contains (String a0 sep0) s = true <->
  exists a b, s = a ++ String a0 sep0 ++ b.
Proof.
  split.
  - induction s as [|x s IH]; cbn [contains]; [discriminate|].
    intros H. apply orb_true_iff in H. destruct H as [H|H].
    + destruct (prefix_inv _ _ H) as [b Hb]. exists EmptyString, b. exact Hb.
    + destruct (IH H) as [a [b ->]]. exists (String x a), b. reflexivity.
  - intros [a [b ->]]. induction a as [|x a IH].
    + change (contains (String a0 sep0) (String a0 (sep0 ++ b)) = true).
      cbn [contains]. apply orb_true_iff. left.
      exact (prefix_app (String a0 sep0) b).
    + change (contains (String a0 sep0) (String x (a ++ String a0 sep0 ++ b)) = true).
      cbn [contains]. apply orb_true_iff. right. exact IH.
Qed.

Lemma split_from_cons sep cur k s : exists x l, split_from sep cur k s = x :: l.
Proof.
  revert cur k. induction s as [|ch s IH]; intros cur k; cbn [split_from].
  - eauto.
  - destruct k; [|apply IH].
    destruct (prefix sep (String ch s)); [eauto | apply IH].
Qed.

Lemma split_from_absent sep s :
  forall cur, contains sep s = false -> split_from sep cur O s = [cur ++ s].
Proof.
  induction s as [|ch s IH]; intros cur H; cbn [split_from].
  - induction cur; simpl; congruence.
  - cbn [contains] in H. apply orb_false_iff in H. destruct H as [Hp Hc].
    rewrite Hp. rewrite (IH _ Hc). f_equal.
    clear. induction cur; simpl; congruence.
Qed.

Lemma split_from_present sep s :
  forall cur, contains sep s = true ->
  exists x y l, split_from sep cur O s = x :: y :: l.
Proof.
  induction s as [|ch s IH]; intros cur H; cbn [split_from contains] in *;
    [discriminate|].
  destruct (prefix sep (String ch s)).
  - destruct (split_from_cons sep EmptyString (String.length sep - 1) s) as [y [l ->]].
    eauto.
  - apply IH. exact H.
Qed.

Lemma open_defined s : exists t, open (parseRestaurantHours s) = Some t.
Proof.
  unfold parseRestaurantHours, split; simpl.
  destruct (split_from_cons " - " EmptyString O s) as [x [l ->]]. simpl. eauto.
Qed.

Lemma close_undefined s :
  close (parseRestaurantHours s) = None <-> contains " - " s = false.
Proof.
  unfold parseRestaurantHours, split; simpl. split.
  - intros H. destruct (contains " - " s) eqn:Hc; [|reflexivity].
    destruct (split_from_present " - " s EmptyString Hc) as [x [y [l Hs]]].
    rewrite Hs in H. discriminate.
  - intros Hc. rewrite (split_from_absent _ _ _ Hc). reflexivity.
Qed.

(** *** Conversions never throw *)

Lemma unsigned_literal_total sign u e : unsigned_literal sign u <> Throws e.
Proof.
  unfold unsigned_literal. destruct u as [|ch u]; [discriminate|].
  repeat match goal with
  | |- context [if ?b then _ else _] => destruct b
  end; discriminate.
Qed.

Lemma Number_total t e : Number t <> Throws e.
Proof.
  unfold Number. destruct (all is_ascii t); [|discriminate].
  destruct (trim t) as [|ch u]; [discriminate|].
  destruct ch as [[] [] [] [] [] [] [] []];
    first [apply unsigned_literal_total | discriminate].
Qed.

Lemma mapM_Number_total l : forall e, mapM Number l <> Throws e.
Proof.
  induction l as [|t l IH]; intros e; simpl; [discriminate|].
  unfold bind. pose proof (Number_total t) as Ht.
  destruct (Number t) as [n|e'|]; [|intros H; apply (Ht e'); reflexivity|discriminate].
  destruct (mapM Number l) as [ns|e'|]; [discriminate| |discriminate].
  intros _. apply (IH e'). reflexivity.
Qed.

Lemma timeToMinutes_total t e : timeToMinutes (Some t) <> Throws e.
Proof.
  unfold timeToMinutes, bind. pose proof (mapM_Number_total (split ":" t)) as Hm.
  destruct (mapM Number (split ":" t)) as [parts|e'|];
    [|intros _; apply (Hm e'); reflexivity|discriminate].
  destruct (nth_error parts 0), (nth_error parts 1); discriminate.
Qed.

(** C3 as stated fails: without the separator the parse step returns a
    record, and with two sides that are no times the evaluator returns a
    result. *)
Lemma malformed_hours_raise_no_parse_error :
  parseRestaurantHours "1200" = {| open := Some "1200"; close := None |} /\
  timeToMinutes (Some "aa:bb") = Returns NaN /\
  getRestaurantStatus (utc_at 12 0) "aa:bb - cc:dd" =
    Returns {| isOpen := false;
               status := "closed";
               message := "Fermé - Ouvre demain à NaN:NaN";
               nextOpenTime := Some "NaN:NaN";
               timeUntilClose := None |}.
Proof.
  repeat split; reflexivity.
Qed.

(** C3, amended. The parse step returns a record for every string: [open]
    is always there and [close] is missing exactly when the separator is
    absent.  The conversion of a side never throws.  The evaluator never
    returns a result when the separator is absent: the conversion of the
    missing [close] throws a TypeError that it does not catch.  With the
    separator present it never throws, and when a side converts to NaN it
    returns a closed result. *)
Theorem parse_failures host s :
  (exists t, open (parseRestaurantHours s) = Some t) /\
  (close (parseRestaurantHours s) = None <-> contains " - " s = false) /\
  (forall t e, timeToMinutes (Some t) <> Throws e) /\
  (contains " - " s = false ->
     (forall r, getRestaurantStatus host s <> Returns r) /\
     (timeToMinutes (open (parseRestaurantHours s)) <> Beyond ->
      getRestaurantStatus host s = Throws TypeError)) /\
  (contains " - " s = true ->
     forall e, getRestaurantStatus host s <> Throws e) /\
  (forall o c,
     timeToMinutes (open (parseRestaurantHours s)) = Returns o ->
     timeToMinutes (close (parseRestaurantHours s)) = Returns c ->
     o = NaN \/ c = NaN ->
     exists r,
       getRestaurantStatus host s = Returns r /\
       isOpen r = false /\ status r = "closed").
Proof.
  split; [apply open_defined|].
  split; [apply close_undefined|].
  split; [apply timeToMinutes_total|].
  destruct (open_defined s) as [t Ht].
  pose proof (timeToMinutes_total t) as Hto.
  split; [|split].
  - intros Habs. apply close_undefined in Habs.
    unfold getRestaurantStatus. rewrite Habs, Ht.
    change (timeToMinutes None) with (@Throws number TypeError). unfold bind.
    destruct (timeToMinutes (Some t)) as [n|e|].
    + split; [intros r H; discriminate H | reflexivity].
    + exfalso. apply (Hto e). reflexivity.
    + split; [intros r H; discriminate H | intros H; contradiction].
  - intros Hpres e.
    destruct (close (parseRestaurantHours s)) as [u|] eqn:Hu.
    + pose proof (timeToMinutes_total u) as Htc.
      unfold getRestaurantStatus, bind. rewrite Ht, Hu.
      destruct (timeToMinutes (Some t)) as [n|e'|];
        [|exfalso; apply (Hto e'); reflexivity|discriminate].
      destruct (timeToMinutes (Some u)) as [m|e'|];
        [discriminate|exfalso; apply (Htc e'); reflexivity|discriminate].
    + apply close_undefined in Hu. congruence.
  - intros o c Ho Hc Hnan. eexists.
    split; [apply (getRestaurantStatus_returns _ _ _ _ Ho Hc)|].
    unfold statusAt, lt, ge, le.
    destruct Hnan as [->| ->]; [destruct c | destruct o];
      cbn [andb]; rewrite ?andb_false_r;
      repeat match goal with
      | |- context [if ?b then _ else _] => destruct b
      end; split; reflexivity.
Qed.

Lemma parse_failures_witness :
  getRestaurantStatus (utc_at 12 0) "1200" = Throws TypeError /\
  exists r,
    getRestaurantStatus (utc_at 12 0) "aa:bb - cc:dd" = Returns r /\
    isOpen r = false /\ status r = "closed".
Proof.
  split.
  - destruct (parse_failures (utc_at 12 0) "1200") as [_ [_ [_ [Habs _]]]].
    destruct (Habs eq_refl) as [_ Hthrows]. apply Hthrows. discriminate.
  - destruct (parse_failures (utc_at 12 0) "aa:bb - cc:dd") as [_ [_ [_ [_ [_ Hnan]]]]].
    apply (Hnan NaN NaN eq_refl eq_refl). left. reflexivity.
Defined.

End TimeUtilsFacts.

(** ** Properties of useRestaurantStatus.ts *)

Module HookFacts.
Import JS TimeUtils Hook Vocabulary TimeUtilsFacts.

Section Poller.

Variable s : string.
Variables o c : number.
Hypothesis Ho : timeToMinutes (open (parseRestaurantHours s)) = Returns o.
Hypothesis Hc : timeToMinutes (close (parseRestaurantHours s)) = Returns c.

Lemma host_eta h : mkHost (nowMs h) (localTZA h) = h.
Proof. destruct h; reflexivity. Qed.

Lemma evaluate_returns w :
  evaluate s w =
    (Returns (published_at (localTZA (host w)) o c (clock w)),
     mkComponent (host w) (timers w) (nextTimerId w) (state w) (cleanup w)
       (Evaluated (clock w) s :: log w)).
Proof.
  unfold evaluate, note, published_at, clock. rewrite host_eta.
  rewrite (getRestaurantStatus_returns _ _ _ _ Ho Hc). reflexivity.
Qed.

Lemma updateStatus_returns w :
  updateStatus s w =
    (Returns tt,
     mkComponent (host w) (timers w) (nextTimerId w)
       (Some (published_at (localTZA (host w)) o c (clock w))) (cleanup w)
       (Published (clock w) (published_at (localTZA (host w)) o c (clock w))
          :: Evaluated (clock w) s :: log w)).
Proof.
  unfold updateStatus, bindM. rewrite evaluate_returns. reflexivity.
Qed.

Lemma mount_fresh h :
  mount s (fresh h) =
    (Returns tt,
     mkComponent h [mkTimer 0 (nowMs h + 60000) 60000 s] 1
       (Some (published_at (localTZA h) o c (nowMs h))) (Some 0%nat)
       [Published (nowMs h) (published_at (localTZA h) o c (nowMs h));
        Evaluated (nowMs h) s; Evaluated (nowMs h) s]).
Proof.
  unfold mount, initialState, effect, bindM.
  rewrite evaluate_returns. rewrite updateStatus_returns. reflexivity.
Qed.

(** Activation evaluates twice, once for the initial state and once in the
    effect, and the hook then returns the published status. *)
Lemma mount_evaluations h :
  evaluations (log (snd (mount s (fresh h)))) = [nowMs h; nowMs h] /\
  useRestaurantStatus (snd (mount s (fresh h))) =
    Some (published_at (localTZA h) o c (nowMs h)).
Proof.
  rewrite mount_fresh. split; reflexivity.
Qed.

(** One interval timer, [n] times due up to [target]. *)
Lemma run_single n :
  forall fuel target id d t tz nid st cl lg,
    (n <= fuel)%nat ->
    target < d + Z.of_nat n * 60000 ->
    (n <> O -> d + (Z.of_nat n - 1) * 60000 <= target) ->
    exists st',
      run fuel target
        (mkComponent (mkHost t tz) [mkTimer id d 60000 s] nid st cl lg) =
      (Returns tt,
       mkComponent (mkHost target tz) [mkTimer id (d + Z.of_nat n * 60000) 60000 s]
         nid st' cl (ticks tz s o c d n lg)).
Proof.
  induction n as [|n IH]; intros fuel target id d t tz nid st cl lg Hfuel Hlt Hge.
  - exists st. replace (d + Z.of_nat 0 * 60000) with d by lia.
    destruct fuel; simpl; [reflexivity|].
    destruct (Z.leb_spec d target); [lia | reflexivity].
  - destruct fuel as [|fuel]; [lia|].
    assert (Hd : d <= target) by lia.
    destruct (IH fuel target id (d + 60000) d tz nid
                (Some (published_at tz o c d)) cl
                (Published d (published_at tz o c d) :: Evaluated d s :: lg))
      as [st' Hrun]; [lia | lia | lia |].
    exists st'.
    cbn [run timers earliest due].
    destruct (Z.leb_spec d target); [|lia].
    unfold bindM at 1. cbn [setClock host timers nextTimerId state cleanup log localTZA].
    unfold bindM at 1. unfold fire at 1. cbn [captured].
    rewrite updateStatus_returns.
    cbn [host timers nextTimerId state cleanup log clock nowMs localTZA].
    unfold bindM at 1.
    cbn [reschedule setTimers map timers timerId due delay captured host
           nextTimerId state cleanup log].
    rewrite Nat.eqb_refl.
    rewrite Hrun. cbn [ticks].
    replace (d + 60000 + Z.of_nat n * 60000) with (d + Z.of_nat (S n) * 60000) by lia.
    reflexivity.
Qed.

Lemma publications_ticks tz t0 n :
  forall j base,
    publications (ticks tz s o c (t0 + Z.of_nat j * 60000) n base) =
    (rev (map (publication tz o c t0) (seq j n)) ++ publications base)%list.
Proof.
  induction n as [|n IH]; intros j base; [reflexivity|].
  cbn [ticks seq map rev].
  replace (t0 + Z.of_nat j * 60000 + 60000) with (t0 + Z.of_nat (S j) * 60000) by lia.
  rewrite IH. rewrite <- app_assoc. reflexivity.
Qed.

(** The component after activation on [h] and [ms] more milliseconds. *)
Lemma elapse_mounted h ms :
  0 <= ms ->
  exists st',
    elapse ms
      (mkComponent h [mkTimer 0 (nowMs h + 60000) 60000 s] 1
         (Some (published_at (localTZA h) o c (nowMs h))) (Some 0%nat)
         [Published (nowMs h) (published_at (localTZA h) o c (nowMs h));
          Evaluated (nowMs h) s; Evaluated (nowMs h) s]) =
    (Returns tt,
     mkComponent (mkHost (nowMs h + ms) (localTZA h))
       [mkTimer 0 (nowMs h + 60000 + Z.of_nat (Z.to_nat (ms / 60000)) * 60000) 60000 s]
       1 st' (Some 0%nat)
       (ticks (localTZA h) s o c (nowMs h + 60000) (Z.to_nat (ms / 60000))
          [Published (nowMs h) (published_at (localTZA h) o c (nowMs h));
           Evaluated (nowMs h) s; Evaluated (nowMs h) s])).
Proof.
  intros Hms. destruct h as [t0 tz]. cbn [nowMs localTZA].
  pose proof (Z.div_pos ms 60000 Hms ltac:(lia)) as Hq.
  pose proof (Z.div_mod ms 60000 ltac:(lia)) as Hdm.
  pose proof (Z.mod_pos_bound ms 60000 ltac:(lia)) as Hr.
  unfold elapse. cbn [clock host nowMs timers map fold_right].
  apply run_single.
  - unfold firings. cbn [due delay].
    destruct (Z.leb_spec (t0 + 60000) (t0 + ms)) as [Hdue|Hdue].
    + replace (t0 + ms - (t0 + 60000)) with (ms - 1 * 60000) by lia.
      assert (Hq' : (ms - 1 * 60000) / 60000 = ms / 60000 - 1).
      { symmetry. apply (Z.div_unique _ _ _ (ms mod 60000)); lia. }
      rewrite Hq'. lia.
    + assert (ms / 60000 = 0) by (apply Z.div_small; lia). lia.
  - rewrite Z2Nat.id by lia. lia.
  - intros _. rewrite Z2Nat.id by lia. lia.
Qed.

(** C8. Activated with an hours string whose two sides convert, the hook
    publishes exactly one result at once; while it stays active a further
    result is published at each full 60 seconds and at no other time; once
    deactivated nothing is evaluated or published any more, so that
    activating and deactivating at once leaves exactly one publication
    however much time passes. *)
Theorem poller_lifecycle h :
  exists w1,
    mount s (fresh h) = (Returns tt, w1) /\
    publications (log w1) = [publication (localTZA h) o c (nowMs h) 0] /\
    (forall ms, 0 <= ms ->
       exists w2,
         elapse ms w1 = (Returns tt, w2) /\
         publications (log w2) =
           rev (map (publication (localTZA h) o c (nowMs h))
                  (seq 0 (S (Z.to_nat (ms / 60000)))))) /\
    (forall ms1 ms2, 0 <= ms1 -> 0 <= ms2 ->
       exists w2 w3 w4,
         elapse ms1 w1 = (Returns tt, w2) /\
         unmount w2 = (Returns tt, w3) /\
         timers w3 = [] /\
         elapse ms2 w3 = (Returns tt, w4) /\
         log w4 = log w2) /\
    (forall ms, 0 <= ms ->
       exists w3 w4,
         unmount w1 = (Returns tt, w3) /\
         elapse ms w3 = (Returns tt, w4) /\
         log w4 = log w1 /\
         publications (log w4) = [publication (localTZA h) o c (nowMs h) 0]).
Proof.
  assert (Hfirst : forall t0 tz,
            (t0, published_at tz o c t0) = publication tz o c t0 0).
  { intros t0 tz. unfold publication. replace (t0 + Z.of_nat 0 * 60000) with t0 by lia.
    reflexivity. }
  eexists. split; [apply mount_fresh|].
  split; [cbn [log publications]; rewrite Hfirst; reflexivity|].
  split; [|split].
  - intros ms Hms. destruct (elapse_mounted h ms Hms) as [st' Hel].
    eexists. split; [exact Hel|]. cbn [log].
    replace (nowMs h + 60000) with (nowMs h + Z.of_nat 1 * 60000) by lia.
    rewrite publications_ticks. cbn [publications seq map rev].
    rewrite Hfirst. rewrite <- app_nil_r at 1. rewrite <- app_assoc. reflexivity.
  - intros ms1 ms2 Hms1 Hms2. destruct (elapse_mounted h ms1 Hms1) as [st' Hel].
    do 3 eexists. split; [exact Hel|].
    split; [reflexivity|]. split; [reflexivity|]. split; reflexivity.
  - intros ms Hms. do 2 eexists.
    split; [reflexivity|]. split; [reflexivity|]. split; [reflexivity|].
    cbn [log publications]. rewrite Hfirst. reflexivity.
Qed.

End Poller.

(** Activation, deactivation at once, and five minutes of simulated time:
    one publication. *)
Lemma poller_lifecycle_witness :
  exists w1 w3 w4,
    mount "09:00 - 18:00" (fresh (utc_at 17 45)) = (Returns tt, w1) /\
    unmount w1 = (Returns tt, w3) /\
    elapse 300000 w3 = (Returns tt, w4) /\
    List.length (publications (log w4)) = 1%nat.
Proof.
  destruct (poller_lifecycle "09:00 - 18:00" (Num 540) (Num 1080) eq_refl eq_refl
              (utc_at 17 45)) as [w1 [Hm [_ [_ [_ Hoff]]]]].
  destruct (Hoff 300000 ltac:(lia)) as [w3 [w4 [Hu [He [_ Hp]]]]].
  exists w1, w3, w4. rewrite Hp. repeat split; assumption.
Defined.

End HookFacts.

(** ** Further properties of timeUtils.ts *)

Module TimeUtilsMore.
Import JS TimeUtils Vocabulary TimeUtilsFacts.

(** *** Splitting at the first separator *)

Lemma append_assoc (a b c : string) : (a ++ b) ++ c = a ++ b ++ c.
Proof. induction a as [|x a IH]; simpl; congruence. Qed.

Lemma append_nil_r (a : string) : a ++ EmptyString = a.
Proof. induction a as [|x a IH]; simpl; congruence. Qed.

(** Characters of a separator already found are passed over. *)
Lemma split_from_skip sep x : forall cur s,
  split_from sep cur (String.length x) (x ++ s) = split_from sep cur O s.
Proof.
  induction x as [|ch x IH]; intros cur s; [reflexivity|].
  cbn [String.length append split_from]. apply IH.
Qed.

(** When no separator starts inside [a], [a] is the first piece. *)
Lemma split_from_first a0 sep0 rest : forall a cur,
  (forall a1 ch a2, a = a1 ++ String ch a2 ->
     prefix (String a0 sep0) (String ch a2 ++ String a0 sep0 ++ rest) = false) ->
  split_from (String a0 sep0) cur O (a ++ String a0 sep0 ++ rest) =
  (cur ++ a) :: split_from (String a0 sep0) EmptyString O rest.
Proof.
  induction a as [|ch a IH]; intros cur Hfree.
  - rewrite append_nil_r.
    change (EmptyString ++ String a0 sep0 ++ rest) with (String a0 (sep0 ++ rest)).
    cbn [split_from].
    change (String a0 (sep0 ++ rest)) with (String a0 sep0 ++ rest) at 1.
    rewrite prefix_app. f_equal.
    replace (String.length (String a0 sep0) - 1)%nat with (String.length sep0)
      by (simpl; lia).
    apply split_from_skip.
  - change (String ch a ++ String a0 sep0 ++ rest)
      with (String ch (a ++ String a0 sep0 ++ rest)).
    cbn [split_from].
    change (String ch (a ++ String a0 sep0 ++ rest))
      with (String ch a ++ String a0 sep0 ++ rest) at 1.
    rewrite (Hfree EmptyString ch a eq_refl).
    rewrite IH.
    + rewrite append_assoc. reflexivity.
    + intros a1 ch' a2 Ha. apply (Hfree (String ch a1) ch' a2).
      rewrite Ha. reflexivity.
Qed.

Lemma without_app x a b : without x (a ++ b) = without x a && without x b.
Proof.
  unfold without. induction a as [|ch a IH]; simpl; [reflexivity|].
  rewrite IH. apply andb_assoc.
Qed.

Lemma without_absent x sep0 s :
  without x s = true -> contains (String x sep0) s = false.
Proof.
  intros Hs. destruct (contains (String x sep0) s) eqn:Hc; [|reflexivity].
  apply contains_spec in Hc. destruct Hc as [a [b ->]].
  rewrite without_app in Hs. apply andb_true_iff in Hs. destruct Hs as [_ Hs].
  unfold without in Hs. simpl in Hs. rewrite Ascii.eqb_refl in Hs. discriminate.
Qed.



Lemma colon_free_start a rest :
  without ":" a = true ->
  forall a1 ch a2, a = a1 ++ String ch a2 ->
    prefix ":" (String ch a2 ++ ":" ++ rest) = false.
Proof.
  intros Ha a1 ch a2 ->.
  rewrite without_app in Ha. apply andb_true_iff in Ha. destruct Ha as [_ Ha].
  unfold without in Ha. simpl in Ha. apply andb_true_iff in Ha. destruct Ha as [Hch _].
  cbn [append prefix]. destruct (ascii_dec ":" ch) as [<-|]; [discriminate | reflexivity].
Qed.


Lemma split_colon a b :
  without ":" a = true -> without ":" b = true ->
  split ":" (a ++ ":" ++ b) = [a; b].
Proof.
  intros Ha Hb. unfold split.
  rewrite (split_from_first ":" EmptyString b a EmptyString (colon_free_start a b Ha)).
  rewrite (split_from_absent _ _ _ (without_absent ":" EmptyString b Hb)). reflexivity.
Qed.



(** *** Conversion of numerals *)

Lemma digit_not_space ch : is_digit ch = true -> is_space ch = false.
Proof.
  unfold is_digit, is_space. intros H.
  apply andb_true_iff in H. destruct H as [H1 H2].
  apply Nat.leb_le in H1. apply Nat.leb_le in H2.
  apply orb_false_iff. split.
  - apply andb_false_iff. right. apply Nat.leb_gt. lia.
  - apply Nat.eqb_neq. lia.
Qed.

Lemma digit_ascii ch : is_digit ch = true -> is_ascii ch = true.
Proof.
  unfold is_digit, is_ascii. intros H.
  apply andb_true_iff in H. destruct H as [_ H2].
  apply Nat.leb_le in H2. apply Nat.ltb_lt. lia.
Qed.

Lemma digits_ascii ds : all is_digit ds = true -> all is_ascii ds = true.
Proof.
  induction ds as [|ch ds IH]; simpl; [reflexivity|].
  intros H. apply andb_true_iff in H. destruct H as [Hc Hds].
  rewrite (digit_ascii _ Hc). exact (IH Hds).
Qed.

Lemma digits_without_colon ds : all is_digit ds = true -> without ":" ds = true.
Proof.
  unfold without. induction ds as [|ch ds IH]; simpl; [reflexivity|].
  intros H. apply andb_true_iff in H. destruct H as [Hc Hds].
  rewrite (IH Hds), andb_true_r.
  destruct (Ascii.eqb_spec ch ":") as [->|]; [discriminate Hc | reflexivity].
Qed.

Lemma digits_trimEnd ds : all is_digit ds = true -> trimEnd ds = ds.
Proof.
  induction ds as [|ch ds IH]; [reflexivity|].
  cbn [all trimEnd]. intros H. apply andb_true_iff in H. destruct H as [Hc Hds].
  rewrite (IH Hds). destruct ds; [|reflexivity].
  rewrite (digit_not_space _ Hc). reflexivity.
Qed.

Lemma digits_trim ds : all is_digit ds = true -> trim ds = ds.
Proof.
  intros H. unfold trim. destruct ds as [|ch ds]; [reflexivity|].
  cbn [trimStart]. cbn [all] in H.
  pose proof H as H'. apply andb_true_iff in H'. destruct H' as [Hc _].
  rewrite (digit_not_space _ Hc). apply digits_trimEnd. exact H.
Qed.

(** [Number] of a numeral is its decimal value. *)
Lemma Number_numeral ds :
  numeral ds = true -> Number ds = Returns (Num (digits_value 0 ds)).
Proof.
  unfold numeral. destruct ds as [|ch ds]; [discriminate|].
  intros H. apply andb_true_iff in H. destruct H as [Hd Hl].
  unfold Number. rewrite (digits_ascii _ Hd), (digits_trim _ Hd).
  assert (Hlit : unsigned_literal 1 (String ch ds)
                 = Returns (Num (digits_value 0 (String ch ds)))).
  { unfold unsigned_literal. rewrite Hd, Hl.
    rewrite Z.mul_1_l. reflexivity. }
  pose proof Hd as Hc. cbn [all] in Hc. apply andb_true_iff in Hc.
  destruct Hc as [Hc _].
  destruct ch as [[] [] [] [] [] [] [] []]; try discriminate Hc; exact Hlit.
Qed.

Lemma numeral_digits ds : numeral ds = true -> all is_digit ds = true.
Proof.
  unfold numeral. destruct ds; [discriminate|].
  intros H. apply andb_true_iff in H. tauto.
Qed.

Lemma timeToMinutes_digits dh dm :
  numeral dh = true -> numeral dm = true ->
  timeToMinutes (Some (dh ++ ":" ++ dm)) =
    Returns (Num (digits_value 0 dh * 60 + digits_value 0 dm)).
Proof.
  intros Hh Hm. unfold timeToMinutes.
  rewrite (split_colon dh dm
             (digits_without_colon _ (numeral_digits _ Hh))
             (digits_without_colon _ (numeral_digits _ Hm))).
  cbn [mapM]. rewrite (Number_numeral _ Hh), (Number_numeral _ Hm).
  reflexivity.
Qed.

(** X2. For two numerals [h] and [m] of up to thirteen digits,
    [timeToMinutes] of "h:m" is [h * 60 + m]: neither number is checked
    against a range and neither needs two digits. *)
Theorem timeToMinutes_numerals dh dm :
  numeral dh = true -> numeral dm = true ->
  timeToMinutes (Some (dh ++ ":" ++ dm)) =
    Returns (Num (digits_value 0 dh * 60 + digits_value 0 dm)).
Proof.
  exact (timeToMinutes_digits dh dm).
Qed.

Lemma timeToMinutes_numerals_witness :
  timeToMinutes (Some "25:99") = Returns (Num 1599) /\
  timeToMinutes (Some "9:5") = Returns (Num 545).
Proof.
  split.
  - exact (timeToMinutes_numerals "25" "99" eq_refl eq_refl).
  - exact (timeToMinutes_numerals "9" "5" eq_refl eq_refl).
Defined.

Lemma two_digits_numeral k :
  0 <= k < 100 ->
  numeral (two_digits k) = true /\ digits_value 0 (two_digits k) = k.
Proof.
  intros Hk.
  assert (H : two_digits_ok k = true)
    by (apply (below_all two_digits_ok 100); [vm_compute; reflexivity | lia]).
  unfold two_digits_ok in H. apply andb_true_iff in H. destruct H as [H1 H2].
  split; [exact H1 | apply Z.eqb_eq; exact H2].
Qed.

(** X3. A time written with two digits for the hour (0 to 99) and two for
    the minute (0 to 59) converts to [h * 60 + m], and converting that count
    back gives the same text. *)
Theorem time_text_roundtrip h m :
  0 <= h < 100 -> 0 <= m < 60 ->
  timeToMinutes (Some (two_digits h ++ ":" ++ two_digits m)) =
    Returns (Num (h * 60 + m)) /\
  minutesToTime (Num (h * 60 + m)) = two_digits h ++ ":" ++ two_digits m.
Proof.
  intros Hh Hm.
  destruct (two_digits_numeral h ltac:(lia)) as [Hnh Hvh].
  destruct (two_digits_numeral m ltac:(lia)) as [Hnm Hvm].
  split.
  - rewrite (timeToMinutes_digits _ _ Hnh Hnm), Hvh, Hvm. reflexivity.
  - unfold minutesToTime, floor_div, rem.
    assert (Hq : (h * 60 + m) / 60 = h)
      by (symmetry; apply (Z.div_unique _ _ _ m); lia).
    assert (Hr : Z.rem (h * 60 + m) 60 = m).
    { rewrite Z.rem_mod_nonneg by lia.
      symmetry. apply (Z.mod_unique _ _ h); lia. }
    rewrite Hq, Hr, !padStart_two_digits by lia. reflexivity.
Qed.

Lemma time_text_roundtrip_witness :
  timeToMinutes (Some "23:59") = Returns (Num 1439) /\
  minutesToTime (Num 1439) = "23:59".
Proof.
  exact (time_text_roundtrip 23 59 ltac:(lia) ltac:(lia)).
Defined.

(** X4. For a count from 0 to 5999 the text has the two digits of
    [n / 60], a colon and the two digits of [n mod 60]: the hour is not
    reduced modulo 24, so 1440 reads 24:00; and converting the text back
    gives the count. *)
Theorem minutesToTime_shape n :
  0 <= n < 6000 ->
  minutesToTime (Num n) = two_digits (n / 60) ++ ":" ++ two_digits (n mod 60) /\
  timeToMinutes (Some (minutesToTime (Num n))) = Returns (Num n).
Proof.
  intros Hn.
  pose proof (Z.mod_pos_bound n 60 ltac:(lia)) as Hr.
  pose proof (Z.div_mod n 60 ltac:(lia)) as Hdm.
  assert (Hq : 0 <= n / 60 < 100)
    by (split; [apply Z.div_pos; lia | apply Z.div_lt_upper_bound; lia]).
  assert (Hshape : minutesToTime (Num n)
                   = two_digits (n / 60) ++ ":" ++ two_digits (n mod 60)).
  { unfold minutesToTime, floor_div, rem.
    rewrite Z.rem_mod_nonneg by lia.
    rewrite !padStart_two_digits by lia. reflexivity. }
  split; [exact Hshape|]. rewrite Hshape.
  destruct (two_digits_numeral (n / 60) Hq) as [Hnh Hvh].
  destruct (two_digits_numeral (n mod 60) ltac:(lia)) as [Hnm Hvm].
  rewrite (timeToMinutes_digits _ _ Hnh Hnm), Hvh, Hvm.
  do 2 f_equal. lia.
Qed.

Lemma minutesToTime_shape_witness :
  minutesToTime (Num 1440) = "24:00" /\
  timeToMinutes (Some (minutesToTime (Num 1440))) = Returns (Num 1440).
Proof.
  exact (minutesToTime_shape 1440 ltac:(lia)).
Defined.

(** X5. A side without a colon that [Number] converts gives NaN: the
    minutes are missing.  With such an opening side the result is closed
    at every hour and names NaN:NaN as the next opening. *)
Theorem hours_without_minutes host s a c :
  open (parseRestaurantHours s) = Some a ->
  without ":" a = true ->
  (exists n, Number a = Returns n) ->
  timeToMinutes (close (parseRestaurantHours s)) = Returns c ->
  timeToMinutes (Some a) = Returns NaN /\
  getRestaurantStatus host s =
    Returns {| isOpen := false;
               status := "closed";
               message := "Fermé - Ouvre demain à NaN:NaN";
               nextOpenTime := Some "NaN:NaN";
               timeUntilClose := None |}.
Proof.
  intros Ha Hcolon [n Hn] Hc.
  assert (HNaN : timeToMinutes (Some a) = Returns NaN).
  { unfold timeToMinutes, split.
    rewrite (split_from_absent _ _ _ (without_absent ":" EmptyString a Hcolon)).
    cbn [append mapM]. rewrite Hn. reflexivity. }
  split; [exact HNaN|].
  rewrite <- Ha in HNaN.
  rewrite (getRestaurantStatus_returns _ _ _ _ HNaN Hc).
  unfold statusAt, lt, ge, le. destruct c; reflexivity.
Qed.

Lemma hours_without_minutes_witness :
  timeToMinutes (Some "9") = Returns NaN /\
  getRestaurantStatus (utc_at 12 0) "9 - 18:00" =
    Returns {| isOpen := false;
               status := "closed";
               message := "Fermé - Ouvre demain à NaN:NaN";
               nextOpenTime := Some "NaN:NaN";
               timeUntilClose := None |}.
Proof.
  exact (hours_without_minutes (utc_at 12 0) "9 - 18:00" "9" (Num 1080)
           eq_refl eq_refl (ex_intro _ (Num 9) eq_refl) eq_refl).
Defined.

(** *** The evaluator on times of the day *)

(** X6. For opening and closing times within the day, an open result shows
    the time left as [(closeM - nowM) mod 1440] minutes, in both kinds of
    interval; that count lies between 1 and 1439, and the status is
    [closing_soon] exactly when it is at most 30. *)
Theorem time_until_close host s openM closeM r :
  timeToMinutes (open (parseRestaurantHours s)) = Returns (Num openM) ->
  timeToMinutes (close (parseRestaurantHours s)) = Returns (Num closeM) ->
  0 <= openM < 1440 -> 0 <= closeM < 1440 ->
  getRestaurantStatus host s = Returns r ->
  isOpen r = true ->
  1 <= (closeM - currentMinutes host) mod 1440 <= 1439 /\
  timeUntilClose r =
    Some (formatTimeUntil (Num ((closeM - currentMinutes host) mod 1440))) /\
  (status r = "closing_soon" <-> (closeM - currentMinutes host) mod 1440 <= 30).
Proof.
  intros Ho Hc Hro Hrc Hr Hopen.
  rewrite (getRestaurantStatus_returns _ _ _ _ Ho Hc) in Hr.
  injection Hr as <-. revert Hopen.
  pose proof (currentMinutes_range host) as Hnow.
  set (nowM := currentMinutes host) in *.
  assert (Hday : nowM < closeM -> (closeM - nowM) mod 1440 = closeM - nowM)
    by (intros; apply Z.mod_small; lia).
  assert (Hnight : closeM < nowM ->
                   (closeM - nowM) mod 1440 = 24 * 60 - nowM + closeM)
    by (intros; symmetry; apply (Z.mod_unique _ _ (-1)); lia).
  unfold statusAt, lt, ge, le, sub, add.
  destruct (Z.ltb_spec closeM openM).
  - destruct (Z.ltb_spec nowM closeM).
    + intros _. rewrite Hday by lia. cbn [timeUntilClose status].
      split; [lia|]. split; [reflexivity|].
      destruct (Z.leb_spec (closeM - nowM) 30); split; intros;
        try reflexivity; try discriminate; lia.
    + destruct (Z.leb_spec openM nowM); [|discriminate].
      intros _. rewrite Hnight by lia. cbn [timeUntilClose status].
      split; [lia|]. split; [reflexivity|].
      destruct (Z.leb_spec (24 * 60 - nowM + closeM) 30); split; intros;
        try reflexivity; try discriminate; lia.
  - destruct (Z.leb_spec openM nowM), (Z.ltb_spec nowM closeM);
      cbn [andb]; try discriminate.
    intros _. rewrite Hday by lia. cbn [timeUntilClose status].
    split; [lia|]. split; [reflexivity|].
    destruct (Z.leb_spec (closeM - nowM) 30); split; intros;
      try reflexivity; try discriminate; lia.
Qed.

Lemma time_until_close_witness :
  exists r,
    getRestaurantStatus (utc_at 23 50) "12:00 - 00:15" = Returns r /\
    timeUntilClose r = Some "25 min".
Proof.
  eexists. split; [reflexivity|].
  exact (proj1 (proj2 (time_until_close (utc_at 23 50) "12:00 - 00:15" 720 15 _
                         eq_refl eq_refl ltac:(lia) ltac:(lia) eq_refl eq_refl))).
Defined.

(** X7. Exchanging the two sides of an interval exchanges open and closed:
    when the two times differ, the result for "B - A" is open exactly when
    the result for "A - B" is not. *)
Theorem exchanged_sides host s s' a b r r' :
  timeToMinutes (open (parseRestaurantHours s)) = Returns (Num a) ->
  timeToMinutes (close (parseRestaurantHours s)) = Returns (Num b) ->
  timeToMinutes (open (parseRestaurantHours s')) = Returns (Num b) ->
  timeToMinutes (close (parseRestaurantHours s')) = Returns (Num a) ->
  a <> b ->
  getRestaurantStatus host s = Returns r ->
  getRestaurantStatus host s' = Returns r' ->
  isOpen r' = negb (isOpen r).
Proof.
  intros Ho Hc Ho' Hc' Hab Hr Hr'.
  rewrite (getRestaurantStatus_returns _ _ _ _ Ho Hc) in Hr.
  rewrite (getRestaurantStatus_returns _ _ _ _ Ho' Hc') in Hr'.
  injection Hr as <-. injection Hr' as <-.
  set (nowM := currentMinutes host).
  unfold statusAt, lt, ge, le.
  destruct (Z.ltb_spec b a), (Z.ltb_spec a b); try lia;
    destruct (Z.ltb_spec nowM b), (Z.leb_spec a nowM),
             (Z.ltb_spec nowM a), (Z.leb_spec b nowM);
    try lia; reflexivity.
Qed.

Lemma exchanged_sides_witness :
  exists r r',
    getRestaurantStatus (utc_at 8 0) "12:00 - 00:15" = Returns r /\
    getRestaurantStatus (utc_at 8 0) "00:15 - 12:00" = Returns r' /\
    isOpen r = false /\ isOpen r' = true.
Proof.
  do 2 eexists. split; [reflexivity|]. split; [reflexivity|].
  split; [reflexivity|].
  exact (exchanged_sides (utc_at 8 0) "12:00 - 00:15" "00:15 - 12:00" 720 15 _ _
           eq_refl eq_refl eq_refl eq_refl ltac:(lia) eq_refl eq_refl).
Defined.

(** X8. For opening and closing times within the day, one rule covers
    both kinds of interval: the result is open exactly when the time since
    the opening, counted round the clock, is less than the length of the
    interval counted the same way. *)
Theorem open_round_the_clock host s openM closeM r :
  timeToMinutes (open (parseRestaurantHours s)) = Returns (Num openM) ->
  timeToMinutes (close (parseRestaurantHours s)) = Returns (Num closeM) ->
  0 <= openM < 1440 -> 0 <= closeM < 1440 ->
  getRestaurantStatus host s = Returns r ->
  (isOpen r = true <->
   (currentMinutes host - openM) mod 1440 < (closeM - openM) mod 1440).
Proof.
  intros Ho Hc Hro Hrc Hr.
  rewrite (getRestaurantStatus_returns _ _ _ _ Ho Hc) in Hr.
  injection Hr as <-.
  pose proof (currentMinutes_range host) as Hnow.
  set (nowM := currentMinutes host) in *.
  assert (Hpos : forall x, 0 <= x < 1440 -> x mod 1440 = x)
    by (intros; apply Z.mod_small; lia).
  assert (Hneg : forall x, -1440 <= x < 0 -> x mod 1440 = x + 1440)
    by (intros; symmetry; apply (Z.mod_unique _ _ (-1)); lia).
  unfold statusAt, lt, ge, le.
  destruct (Z.ltb_spec closeM openM).
  - rewrite (Hneg (closeM - openM)) by lia.
    destruct (Z.ltb_spec nowM closeM); [|destruct (Z.leb_spec openM nowM)];
      cbn [isOpen].
    + rewrite (Hneg (nowM - openM)) by lia. split; [lia | reflexivity].
    + rewrite (Hpos (nowM - openM)) by lia. split; [lia | reflexivity].
    + rewrite (Hneg (nowM - openM)) by lia. split; [discriminate | lia].
  - rewrite (Hpos (closeM - openM)) by lia.
    destruct (Z.leb_spec openM nowM), (Z.ltb_spec nowM closeM);
      cbn [andb isOpen].
    + rewrite (Hpos (nowM - openM)) by lia. split; [lia | reflexivity].
    + rewrite (Hpos (nowM - openM)) by lia. split; [discriminate | lia].
    + rewrite (Hneg (nowM - openM)) by lia. split; [discriminate | lia].
    + rewrite (Hneg (nowM - openM)) by lia. split; [discriminate | lia].
Qed.

Lemma open_round_the_clock_witness :
  exists r,
    getRestaurantStatus (utc_at 0 10) "12:00 - 00:15" = Returns r /\
    isOpen r = true /\
    (currentMinutes (utc_at 0 10) - 720) mod 1440 < (15 - 720) mod 1440.
Proof.
  eexists. split; [reflexivity|]. split; [reflexivity|].
  apply (open_round_the_clock (utc_at 0 10) "12:00 - 00:15" 720 15 _
           eq_refl eq_refl ltac:(lia) ltac:(lia) eq_refl).
  reflexivity.
Defined.

(** X9. The time left counts down to the closing: when a result is open
    with [k] minutes left, the result one minute later is open with
    [k - 1] minutes left if [k > 1], and not open if [k = 1]; also across
    midnight. *)
Theorem countdown_step host1 host2 s openM closeM r1 r2 :
  timeToMinutes (open (parseRestaurantHours s)) = Returns (Num openM) ->
  timeToMinutes (close (parseRestaurantHours s)) = Returns (Num closeM) ->
  0 <= openM < 1440 -> 0 <= closeM < 1440 ->
  currentMinutes host2 = (currentMinutes host1 + 1) mod 1440 ->
  getRestaurantStatus host1 s = Returns r1 ->
  getRestaurantStatus host2 s = Returns r2 ->
  isOpen r1 = true ->
  ((closeM - currentMinutes host1) mod 1440 = 1 -> isOpen r2 = false) /\
  (1 < (closeM - currentMinutes host1) mod 1440 ->
     isOpen r2 = true /\
     timeUntilClose r2 =
       Some (formatTimeUntil (Num ((closeM - currentMinutes host1) mod 1440 - 1)))).
Proof.
  intros Ho Hc Hro Hrc Hnext Hr1 Hr2.
  rewrite (getRestaurantStatus_returns host1 _ _ _ Ho Hc) in Hr1.
  rewrite (getRestaurantStatus_returns host2 _ _ _ Ho Hc) in Hr2.
  injection Hr1 as <-. injection Hr2 as <-.
  pose proof (currentMinutes_range host1) as Hnow1.
  set (now1 := currentMinutes host1) in *.
  set (now2 := currentMinutes host2) in *.
  assert (Hstep : now1 < 1439 /\ now2 = now1 + 1 \/ now1 = 1439 /\ now2 = 0).
  { destruct (Z.eq_dec now1 1439) as [->|]; [right; split; [reflexivity|exact Hnext]|].
    left. split; [lia|]. rewrite Hnext. apply Z.mod_small. lia. }
  clearbody now2. clear Hnext.
  assert (Hday : now1 < closeM -> (closeM - now1) mod 1440 = closeM - now1)
    by (intros; apply Z.mod_small; lia).
  assert (Hnight : closeM < now1 ->
                   (closeM - now1) mod 1440 = closeM - now1 + 1440)
    by (intros; symmetry; apply (Z.mod_unique _ _ (-1)); lia).
  unfold statusAt, lt, ge, le, sub, add.
  destruct (Z.ltb_spec closeM openM).
  - destruct (Z.ltb_spec now1 closeM); [|destruct (Z.leb_spec openM now1)];
      cbn [isOpen]; try discriminate; intros _;
      [rewrite Hday by lia | rewrite Hnight by lia];
      (destruct (Z.ltb_spec now2 closeM); [|destruct (Z.leb_spec openM now2)]);
      cbn [isOpen timeUntilClose];
      (split; intros; [try reflexivity; lia |]);
      try lia; (split; [reflexivity | do 3 f_equal; lia]).
  - destruct (Z.leb_spec openM now1), (Z.ltb_spec now1 closeM);
      cbn [andb isOpen]; try discriminate; intros _;
      rewrite Hday by lia;
      destruct (Z.leb_spec openM now2), (Z.ltb_spec now2 closeM);
      cbn [andb isOpen timeUntilClose];
      (split; intros; [try reflexivity; lia |]);
      try lia; (split; [reflexivity | do 3 f_equal; lia]).
Qed.

Lemma countdown_step_witness :
  exists r1 r2,
    getRestaurantStatus (utc_at 23 59) "12:00 - 00:15" = Returns r1 /\
    getRestaurantStatus (utc_at 0 0) "12:00 - 00:15" = Returns r2 /\
    timeUntilClose r1 = Some "16 min" /\
    timeUntilClose r2 = Some "15 min".
Proof.
  do 2 eexists. split; [reflexivity|]. split; [reflexivity|].
  split; [reflexivity|].
  refine (proj2 (proj2 (countdown_step (utc_at 23 59) (utc_at 0 0) "12:00 - 00:15"
                          720 15 _ _ eq_refl eq_refl ltac:(lia) ltac:(lia)
                          eq_refl eq_refl eq_refl eq_refl) _)).
  vm_compute. reflexivity.
Defined.

(** X10. The message follows from the status and the two times: an open
    result names the closing time, a closed one names the opening time, the
    one it gives as the next opening, and says "demain" exactly when the
    interval lies within the day and has ended. *)
Theorem message_of_result host s openM closeM r :
  timeToMinutes (open (parseRestaurantHours s)) = Returns (Num openM) ->
  timeToMinutes (close (parseRestaurantHours s)) = Returns (Num closeM) ->
  getRestaurantStatus host s = Returns r ->
  (status r = "open" ->
     message r = "Ouvert jusqu'à " ++ minutesToTime (Num closeM)) /\
  (status r = "closing_soon" ->
     message r = "Ferme bientôt (" ++ minutesToTime (Num closeM) ++ ")") /\
  (status r = "closed" ->
     nextOpenTime r = Some (minutesToTime (Num openM)) /\
     message r =
       if (openM <=? closeM) && (closeM <=? currentMinutes host)
       then "Fermé - Ouvre demain à " ++ minutesToTime (Num openM)
       else "Fermé - Ouvre à " ++ minutesToTime (Num openM)).
Proof.
  intros Ho Hc Hr.
  rewrite (getRestaurantStatus_returns _ _ _ _ Ho Hc) in Hr.
  injection Hr as <-.
  set (nowM := currentMinutes host).
  unfold statusAt, lt, ge, le, sub, add.
  destruct (Z.ltb_spec closeM openM).
  - destruct (Z.leb_spec openM closeM); [lia|]. cbn [andb].
    destruct (Z.ltb_spec nowM closeM); [|destruct (Z.leb_spec openM nowM)];
      cbn [status message nextOpenTime];
      repeat match goal with
      | |- context [if ?b then _ else _] => destruct b
      end;
      repeat split; intros; try reflexivity; discriminate.
  - destruct (Z.leb_spec openM closeM); [|lia]. cbn [andb].
    destruct (Z.leb_spec openM nowM), (Z.ltb_spec nowM closeM),
             (Z.leb_spec closeM nowM), (Z.ltb_spec nowM openM);
      try lia; cbn [andb status message nextOpenTime];
      repeat match goal with
      | |- context [if ?b then _ else _] => destruct b
      end;
      repeat split; intros; try reflexivity; discriminate.
Qed.

Lemma message_of_result_witness :
  exists r,
    getRestaurantStatus (utc_at 19 30) "09:00 - 18:00" = Returns r /\
    message r = "Fermé - Ouvre demain à 09:00" /\
    nextOpenTime r = Some "09:00".
Proof.
  eexists. split; [reflexivity|].
  destruct (message_of_result (utc_at 19 30) "09:00 - 18:00" 540 1080 _
              eq_refl eq_refl eq_refl) as [_ [_ Hclosed]].
  destruct (Hclosed eq_refl) as [Hnext Hmsg].
  split; [exact Hmsg | exact Hnext].
Defined.

(** X11. The colour and the glyph of a result agree: the colour is never
    the gray one, it is the red one exactly when the result is not open,
    and then and only then the glyph is the red one. *)
Theorem colour_of_result host s r :
  getRestaurantStatus host s = Returns r ->
  getStatusColor (status r) <> "text-gray-400" /\
  (getStatusColor (status r) = "text-red-400" <-> isOpen r = false) /\
  (getStatusIcon (isOpen r) = "🔴" <-> getStatusColor (status r) = "text-red-400").
Proof.
  unfold getRestaurantStatus, bind. intros H.
  destruct (timeToMinutes (open (parseRestaurantHours s))); try discriminate.
  destruct (timeToMinutes (close (parseRestaurantHours s))); try discriminate.
  injection H as <-.
  destruct (statusAt_coupled (Num (currentMinutes host)) a a0)
    as [Hopen [_ [Hclosed _]]].
  destruct (isOpen (statusAt (Num (currentMinutes host)) a a0)).
  - destruct (proj1 Hopen eq_refl) as [-> | ->];
      repeat split; intros; try reflexivity; discriminate.
  - rewrite (proj1 Hclosed eq_refl).
    repeat split; intros; try reflexivity; discriminate.
Qed.

Lemma colour_of_result_witness :
  exists r,
    getRestaurantStatus (utc_at 17 45) "09:00 - 18:00" = Returns r /\
    getStatusColor (status r) <> "text-gray-400".
Proof.
  eexists. split; [reflexivity|].
  exact (proj1 (colour_of_result (utc_at 17 45) "09:00 - 18:00" _ eq_refl)).
Defined.

(** *** The clock *)

Lemma currentMinutes_local host :
  currentMinutes host =
    (LocalTime host (nowMs host + 3600000) / 60000) mod 1440.
Proof.
  unfold currentMinutes, getHours, getMinutes, getCurrentMoroccoTime,
    msPerHour, msPerMinute.
  replace (nowMs host + 1 * 60 * 60 * 1000) with (nowMs host + 3600000) by lia.
  set (T := LocalTime host (nowMs host + 3600000)).
  change 3600000 with (60000 * 60).
  rewrite <- Z.div_div by lia.
  change 1440 with (60 * 24).
  rewrite Z.rem_mul_r by lia. lia.
Qed.

Lemma local_minute t z :
  currentMinutes (mkHost t (fun _ => z)) = ((t + z) / 60000 + 60) mod 1440.
Proof.
  rewrite currentMinutes_local. unfold LocalTime. cbn [nowMs localTZA].
  replace (t + 3600000 + z) with (t + z + 60 * 60000) by lia.
  rewrite Z.div_add by lia. reflexivity.
Qed.

(** X12. The minute of the day the evaluator works with is the minute of
    the host's local time one hour after the present instant.  On a host
    with the zone offset [z] it is the local minute of the day plus 60,
    modulo 1440: the hour is added to whatever zone the host is in. *)
Theorem evaluator_clock :
  (forall host,
     currentMinutes host =
       (LocalTime host (nowMs host + 3600000) / 60000) mod 1440) /\
  (forall t z,
     currentMinutes (mkHost t (fun _ => z)) = ((t + z) / 60000 + 60) mod 1440).
Proof.
  split; [exact currentMinutes_local | exact local_minute].
Qed.

(** X13. On a host with a fixed zone offset the result depends on the
    instant only through the minute of the day: it is the same later in
    the same minute and any number of whole days away. *)
Theorem evaluation_per_minute t z d k s :
  0 <= d < 60000 - (t + z) mod 60000 ->
  getRestaurantStatus (mkHost (t + d + k * 86400000) (fun _ => z)) s =
  getRestaurantStatus (mkHost t (fun _ => z)) s.
Proof.
  intros Hd. unfold getRestaurantStatus. rewrite !local_minute.
  pose proof (Z.div_mod (t + z) 60000 ltac:(lia)) as Hdm.
  pose proof (Z.mod_pos_bound (t + z) 60000 ltac:(lia)) as Hr.
  assert (Hq : (t + d + k * 86400000 + z) / 60000 = (t + z) / 60000 + k * 1440).
  { symmetry. apply (Z.div_unique _ _ _ ((t + z) mod 60000 + d)); lia. }
  rewrite Hq.
  replace ((t + z) / 60000 + k * 1440 + 60) with ((t + z) / 60000 + 60 + k * 1440)
    by lia.
  rewrite Z.mod_add by lia. reflexivity.
Qed.

Lemma evaluation_per_minute_witness :
  getRestaurantStatus (mkHost (60300000 + 59999 + 3 * 86400000) (fun _ => 0))
    "09:00 - 18:00" =
  getRestaurantStatus (mkHost 60300000 (fun _ => 0)) "09:00 - 18:00".
Proof.
  apply (evaluation_per_minute 60300000 0 59999 3).
  split; [discriminate | reflexivity].
Defined.

(** Without the separator the evaluator throws, provided the opening side
    stays within the fragment. *)
Lemma getRestaurantStatus_throws host s :
  contains " - " s = false ->
  timeToMinutes (open (parseRestaurantHours s)) <> Beyond ->
  getRestaurantStatus host s = Throws TypeError.
Proof.
  intros Habs Hin. apply close_undefined in Habs.
  destruct (open_defined s) as [t Ht].
  unfold getRestaurantStatus. rewrite Habs. rewrite Ht in *.
  change (timeToMinutes None) with (@Throws number TypeError).
  pose proof (timeToMinutes_total t) as Htot. unfold bind.
  destruct (timeToMinutes (Some t)) as [n|e|];
    [reflexivity | exfalso; apply (Htot e); reflexivity | contradiction].
Qed.

(** *** The text of the time left *)

Lemma distinct_NoDup l : distinct l = true -> NoDup l.
Proof.
  induction l as [|x l IH]; simpl; intros H; [constructor|].
  apply andb_true_iff in H. destruct H as [Hx Hl].
  constructor; [|exact (IH Hl)].
  intros Hin. apply negb_true_iff in Hx.
  assert (existsb (String.eqb x) l = true); [|congruence].
  apply existsb_exists. exists x. split; [exact Hin | apply String.eqb_refl].
Qed.

Lemma NoDup_map_injective {A B} (f : A -> B) l :
  NoDup (map f l) -> forall x y, In x l -> In y l -> f x = f y -> x = y.
Proof.
  induction l as [|a l IH]; simpl; intros Hnd x y Hx Hy Hxy; [contradiction|].
  inversion Hnd as [|? ? Hnotin Hnd']; subst.
  destruct Hx as [<-|Hx], Hy as [<-|Hy].
  - reflexivity.
  - exfalso. apply Hnotin. rewrite Hxy. apply in_map. exact Hy.
  - exfalso. apply Hnotin. rewrite <- Hxy. apply in_map. exact Hx.
  - exact (IH Hnd' x y Hx Hy Hxy).
Qed.

(** X14. Within a day the text of the time left determines the number of
    minutes: two different counts below 1440 never read the same. *)
Theorem formatTimeUntil_injective n m :
  0 <= n < 1440 -> 0 <= m < 1440 ->
  formatTimeUntil (Num n) = formatTimeUntil (Num m) -> n = m.
Proof.
  intros Hn Hm Heq.
  assert (Hnd : NoDup (countdown_texts 1440))
    by (apply distinct_NoDup; vm_compute; reflexivity).
  assert (Z.to_nat n = Z.to_nat m); [|lia].
  apply (NoDup_map_injective _ _ Hnd); try (apply in_seq; lia).
  rewrite !Z2Nat.id by lia. exact Heq.
Qed.

Lemma formatTimeUntil_injective_witness :
  formatTimeUntil (Num 61) = formatTimeUntil (Num (1 + 60)) /\ 61 = 1 + 60.
Proof.
  split; [reflexivity|].
  apply formatTimeUntil_injective; [lia | lia | reflexivity].
Defined.

End TimeUtilsMore.

(** ** Further properties of useRestaurantStatus.ts *)

Module HookMore.
Import JS TimeUtils Hook Vocabulary TimeUtilsFacts TimeUtilsMore HookFacts.

Section Mounted.

Variable s : string.
Variables o c : number.
Hypothesis Ho : timeToMinutes (open (parseRestaurantHours s)) = Returns o.
Hypothesis Hc : timeToMinutes (close (parseRestaurantHours s)) = Returns c.

(** One interval timer, [n] times due up to [target], with the state it
    leaves. *)
Lemma run_single_state n :
  forall fuel target id d t tz nid st cl lg,
    (n <= fuel)%nat ->
    target < d + Z.of_nat n * 60000 ->
    (n <> O -> d + (Z.of_nat n - 1) * 60000 <= target) ->
    run fuel target
      (mkComponent (mkHost t tz) [mkTimer id d 60000 s] nid st cl lg) =
    (Returns tt,
     mkComponent (mkHost target tz) [mkTimer id (d + Z.of_nat n * 60000) 60000 s]
       nid
       (match n with
        | O => st
        | S k => Some (published_at tz o c (d + Z.of_nat k * 60000))
        end)
       cl (ticks tz s o c d n lg)).
Proof.
  induction n as [|n IH]; intros fuel target id d t tz nid st cl lg Hfuel Hlt Hge.
  - replace (d + Z.of_nat 0 * 60000) with d by lia.
    destruct fuel; simpl; [reflexivity|].
    destruct (Z.leb_spec d target); [lia | reflexivity].
  - destruct fuel as [|fuel]; [lia|].
    assert (Hd : d <= target) by lia.
    cbn [run timers earliest due].
    destruct (Z.leb_spec d target); [|lia].
    unfold bindM at 1. cbn [setClock host timers nextTimerId state cleanup log localTZA].
    unfold bindM at 1. unfold fire at 1. cbn [captured].
    rewrite (updateStatus_returns s o c Ho Hc).
    cbn [host timers nextTimerId state cleanup log clock nowMs localTZA].
    unfold bindM at 1.
    cbn [reschedule setTimers map timers timerId due delay captured host
           nextTimerId state cleanup log].
    rewrite Nat.eqb_refl.
    rewrite (IH fuel target id (d + 60000) d tz nid
               (Some (published_at tz o c d)) cl
               (Published d (published_at tz o c d) :: Evaluated d s :: lg))
      by lia.
    cbn [ticks].
    replace (d + 60000 + Z.of_nat n * 60000) with (d + Z.of_nat (S n) * 60000) by lia.
    do 3 f_equal.
    destruct n as [|k]; [do 2 f_equal; lia|].
    do 2 f_equal. lia.
Qed.

(** A component whose only timer was armed at the present instant, [ms]
    milliseconds later. *)
Lemma elapse_armed t tz id nid st cl lg ms :
  0 <= ms ->
  elapse ms (mkComponent (mkHost t tz) [mkTimer id (t + 60000) 60000 s] nid st cl lg) =
  (Returns tt,
   mkComponent (mkHost (t + ms) tz)
     [mkTimer id (t + 60000 + Z.of_nat (Z.to_nat (ms / 60000)) * 60000) 60000 s]
     nid
     (match Z.to_nat (ms / 60000) with
      | O => st
      | S k => Some (published_at tz o c (t + 60000 + Z.of_nat k * 60000))
      end)
     cl (ticks tz s o c (t + 60000) (Z.to_nat (ms / 60000)) lg)).
Proof.
  intros Hms.
  pose proof (Z.div_pos ms 60000 Hms ltac:(lia)) as Hq.
  pose proof (Z.div_mod ms 60000 ltac:(lia)) as Hdm.
  pose proof (Z.mod_pos_bound ms 60000 ltac:(lia)) as Hr.
  unfold elapse. cbn [clock host nowMs timers map fold_right].
  apply run_single_state.
  - unfold firings. cbn [due delay].
    destruct (Z.leb_spec (t + 60000) (t + ms)) as [Hdue|Hdue].
    + replace (t + ms - (t + 60000)) with (ms - 1 * 60000) by lia.
      assert (Hq' : (ms - 1 * 60000) / 60000 = ms / 60000 - 1).
      { symmetry. apply (Z.div_unique _ _ _ (ms mod 60000)); lia. }
      rewrite Hq'. lia.
    + assert (ms / 60000 = 0) by (apply Z.div_small; lia). lia.
  - rewrite Z2Nat.id by lia. lia.
  - intros _. rewrite Z2Nat.id by lia. lia.
Qed.

(** X15. While the hook is active the value it returns is the status
    computed at the last whole minute since activation, so it is less than
    60 seconds old; and the component holds exactly one timer, due within
    the next 60 seconds. *)
Theorem hook_value_age h ms :
  0 <= ms ->
  exists w,
    (mount s ;;; elapse ms) (fresh h) = (Returns tt, w) /\
    clock w = nowMs h + ms /\
    useRestaurantStatus w =
      Some (published_at (localTZA h) o c (nowMs h + ms / 60000 * 60000)) /\
    0 <= clock w - (nowMs h + ms / 60000 * 60000) < 60000 /\
    timers w = [mkTimer 0 (nowMs h + (ms / 60000 + 1) * 60000) 60000 s] /\
    clock w < nowMs h + (ms / 60000 + 1) * 60000 <= clock w + 60000.
Proof.
  intros Hms. destruct h as [t0 tz].
  pose proof (Z.div_pos ms 60000 Hms ltac:(lia)) as Hq.
  pose proof (Z.div_mod ms 60000 ltac:(lia)) as Hdm.
  pose proof (Z.mod_pos_bound ms 60000 ltac:(lia)) as Hr.
  unfold bindM. rewrite (mount_fresh s o c Ho Hc). cbn [nowMs localTZA].
  rewrite (elapse_armed _ _ _ _ _ _ _ _ Hms).
  eexists. split; [reflexivity|].
  cbn [clock host nowMs useRestaurantStatus state timers].
  split; [reflexivity|]. split; [|split; [lia|split; [|lia]]].
  - destruct (Z.to_nat (ms / 60000)) as [|k] eqn:Hk.
    + assert (ms / 60000 = 0) by lia. do 2 f_equal. lia.
    + do 2 f_equal. lia.
  - do 2 f_equal. rewrite Z2Nat.id by lia. lia.
Qed.

End Mounted.

(** The hook for 09:00 - 18:00, activated at 17:45, two and a half
    minutes later. *)
Lemma hook_value_age_witness :
  exists w,
    (mount "09:00 - 18:00" ;;; elapse 150000) (fresh (utc_at 17 45)) = (Returns tt, w) /\
    option_map timeUntilClose (useRestaurantStatus w) = Some (Some "13 min").
Proof.
  destruct (hook_value_age "09:00 - 18:00" (Num 540) (Num 1080) eq_refl eq_refl
              (utc_at 17 45) 150000 ltac:(lia)) as [w [Hw [_ [Hv _]]]].
  exists w. split; [exact Hw|]. rewrite Hv. reflexivity.
Defined.

(** X16. Activated with a string without the separator, the hook throws
    in its first render: no state is set, no timer is registered, nothing
    is published, and nothing is evaluated later. *)
Theorem mount_without_separator h s :
  contains " - " s = false ->
  timeToMinutes (open (parseRestaurantHours s)) <> Beyond ->
  exists w,
    mount s (fresh h) = (Throws TypeError, w) /\
    useRestaurantStatus w = None /\
    timers w = [] /\
    publications (log w) = [] /\
    forall ms, log (snd (elapse ms w)) = log w.
Proof.
  intros Habs Hin.
  unfold mount, bindM, initialState, evaluate, note.
  cbn [fresh host timers nextTimerId state cleanup log].
  rewrite (getRestaurantStatus_throws h s Habs Hin).
  eexists. split; [reflexivity|]. repeat split.
Qed.

Lemma mount_without_separator_witness :
  exists w,
    mount "midi minuit" (fresh (utc_at 17 45)) = (Throws TypeError, w) /\
    timers w = [].
Proof.
  destruct (mount_without_separator (utc_at 17 45) "midi minuit" eq_refl)
    as [w [Hw [_ [Ht _]]]]; [vm_compute; discriminate|].
  exists w. split; assumption.
Defined.

Section Rerender.

Variables s s' : string.
Variables o c o' c' : number.
Hypothesis Ho : timeToMinutes (open (parseRestaurantHours s)) = Returns o.
Hypothesis Hc : timeToMinutes (close (parseRestaurantHours s)) = Returns c.
Hypothesis Ho' : timeToMinutes (open (parseRestaurantHours s')) = Returns o'.
Hypothesis Hc' : timeToMinutes (close (parseRestaurantHours s')) = Returns c'.
Hypothesis Hchanged : s <> s'.

(** X17. A render with a changed hours string, [ms] milliseconds after
    activation, clears the old timer, publishes the status of the new
    string at once and arms one new timer 60 seconds ahead; from then on
    only the new string is evaluated, once per 60 seconds, and removing
    the component leaves no timer.  A render with the same string changes
    nothing. *)
Theorem rerender_restarts h ms :
  0 <= ms ->
  exists w2 w3,
    (mount s ;;; elapse ms) (fresh h) = (Returns tt, w2) /\
    rerender s s w2 = (Returns tt, w2) /\
    rerender s s' w2 = (Returns tt, w3) /\
    timers w3 = [mkTimer 1 (nowMs h + ms + 60000) 60000 s'] /\
    log w3 =
      Published (nowMs h + ms) (published_at (localTZA h) o' c' (nowMs h + ms))
        :: Evaluated (nowMs h + ms) s' :: log w2 /\
    forall ms2, 0 <= ms2 ->
      exists w4 w5,
        elapse ms2 w3 = (Returns tt, w4) /\
        log w4 =
          ticks (localTZA h) s' o' c' (nowMs h + ms + 60000)
            (Z.to_nat (ms2 / 60000)) (log w3) /\
        unmount w4 = (Returns tt, w5) /\
        timers w5 = [].
Proof.
  intros Hms. destruct h as [t0 tz].
  unfold bindM at 1. rewrite (mount_fresh s o c Ho Hc). cbn [nowMs localTZA].
  rewrite (elapse_armed s o c Ho Hc _ _ _ _ _ _ _ _ Hms).
  do 2 eexists. split; [reflexivity|].
  split; [unfold rerender; rewrite String.eqb_refl; reflexivity|].
  assert (Hne : String.eqb s s' = false) by (apply String.eqb_neq; exact Hchanged).
  split.
  - unfold rerender. rewrite Hne.
    unfold bindM at 1. unfold unmount. cbn [cleanup].
    unfold bindM at 1.
    cbn [clearInterval setTimers timers filter timerId Nat.eqb negb host
           nextTimerId state cleanup log setCleanup].
    unfold effect. unfold bindM at 1.
    rewrite (updateStatus_returns s' o' c' Ho' Hc').
    cbn [host timers nextTimerId state cleanup log clock nowMs localTZA].
    unfold bindM, setInterval, setCleanup.
    cbn [host timers nextTimerId state cleanup log clock nowMs localTZA app].
    change (Z.max 1 60000) with 60000.
    reflexivity.
  - cbn [timers log]. split; [reflexivity|]. split; [reflexivity|].
    intros ms2 Hms2.
    rewrite (elapse_armed s' o' c' Ho' Hc' _ _ _ _ _ _ _ _ Hms2).
    do 2 eexists. split; [reflexivity|]. split; [reflexivity|].
    split; reflexivity.
Qed.

End Rerender.

Lemma rerender_restarts_witness :
  exists w2 w3,
    (mount "09:00 - 18:00" ;;; elapse 90000) (fresh (utc_at 17 45)) = (Returns tt, w2) /\
    rerender "09:00 - 18:00" "12:00 - 00:15" w2 = (Returns tt, w3) /\
    List.map captured (timers w3) = ["12:00 - 00:15"].
Proof.
  destruct (rerender_restarts "09:00 - 18:00" "12:00 - 00:15"
              (Num 540) (Num 1080) (Num 720) (Num 15)
              eq_refl eq_refl eq_refl eq_refl ltac:(discriminate)
              (utc_at 17 45) 90000 ltac:(lia))
    as [w2 [w3 [Hw2 [_ [Hw3 [Ht _]]]]]].
  exists w2, w3. rewrite Ht. repeat split; assumption.
Defined.

End HookMore.
